(** * Book Finder: the search / pagination controller of [Home.jsx]

    A shallow embedding of the stateful part of the [BookFinder] component
    (src/component/Home.jsx): the React state cells, the asynchronous
    [performSearch] split at its [await], the continuation entry point
    [loadMoreBooks], the effect attached to [searchQuery], and the
    favourites operations.

    Conventions.
    - Every [useState] cell is a field of [State]; a setter call is a
      record update, and a sequence of setter calls is a composition of
      updates in source order.
    - [performSearch] is an [async] function.  Its synchronous prefix (up to
      [await fetch(url)]) is [performSearch]; the suspended call is a
      [Request] holding the captured arguments; the code after the [await]
      is [performSearch_resume], run on the state current at arrival.
    - Event handlers run against the state of the latest render, except
      the two callbacks the component keeps from an earlier render: the
      debounce timeout (first render) and the [IntersectionObserver]
      callback (the render that created the observer).  One render is
      committed after each handler. *)

From Stdlib Require Import List Ascii String Bool Arith ZArith NArith Lia.
From Stdlib Require Import DecimalString.
From Stdlib Require DecimalPos DecimalZ Eqdep_dec.
Import ListNotations.
Local Open Scope string_scope.
Local Open Scope list_scope.

(** ** JavaScript strings seen by [trim] *)

(** The query text is inspected character by character by
    [String.prototype.trim], so it is a sequence of UTF-16 code units. *)
Definition jsstring := list N.

Definition str (s : string) : jsstring :=
  map (fun c => N_of_ascii c) (list_ascii_of_string s).

Definition jsstring_eq_dec : forall a b : jsstring, {a = b} + {a <> b} :=
  list_eq_dec N.eq_dec.

(** ECMAScript WhiteSpace and LineTerminator code points: the characters
    removed by [trim]. *)
Definition is_js_space (c : N) : bool :=
  ((9 <=? c) && (c <=? 13) || (c =? 32) || (c =? 160) || (c =? 5760)
   || ((8192 <=? c) && (c <=? 8202)) || (c =? 8232) || (c =? 8233)
   || (c =? 8239) || (c =? 8287) || (c =? 12288) || (c =? 65279))%N.

Fixpoint trimStart (q : jsstring) : jsstring :=
  match q with
  | [] => []
  | c :: q' => if is_js_space c then trimStart q' else q
  end.

Definition trimEnd (q : jsstring) : jsstring := rev (trimStart (rev q)).

Definition trim (q : jsstring) : jsstring := trimEnd (trimStart q).

(** Truthiness of a JavaScript string: non-empty. *)
Definition truthy (q : jsstring) : bool :=
  match q with [] => false | _ :: _ => true end.

Definition nonempty (s : string) : bool :=
  match s with EmptyString => false | String _ _ => true end.

(** ** Data model *)

(** A record of the catalogue.  The controller only ever looks at [key];
    the descriptive fields are carried along untouched. *)
Record Book := mkBook {
  key : string;
  title : string
}.

Record Filters := mkFilters {
  language : string;
  publishYear : string;
  subject : string
}.

(** The [useState] cells of [BookFinder] that the controller uses. *)
Record State := mkState {
  searchQuery : jsstring;
  searchType : string;
  books : list Book;
  loading : bool;
  loadingMore : bool;
  error : string;
  favorites : list Book;
  filters : Filters;
  currentPage : nat;
  hasMore : bool;
  totalBooks : Z
}.

Definition noFilters : Filters := mkFilters EmptyString EmptyString EmptyString.

(** Initial values of the [useState] calls. *)
Definition initialState : State :=
  mkState [] "title" [] false false EmptyString [] noFilters 0 false 0%Z.

(** *** Setters *)

Definition setSearchQuery (v : jsstring) (s : State) : State :=
  mkState v (searchType s) (books s) (loading s) (loadingMore s) (error s)
          (favorites s) (filters s) (currentPage s) (hasMore s) (totalBooks s).

Definition setSearchType (v : string) (s : State) : State :=
  mkState (searchQuery s) v (books s) (loading s) (loadingMore s) (error s)
          (favorites s) (filters s) (currentPage s) (hasMore s) (totalBooks s).

Definition setBooks (v : list Book) (s : State) : State :=
  mkState (searchQuery s) (searchType s) v (loading s) (loadingMore s) (error s)
          (favorites s) (filters s) (currentPage s) (hasMore s) (totalBooks s).

Definition setLoading (v : bool) (s : State) : State :=
  mkState (searchQuery s) (searchType s) (books s) v (loadingMore s) (error s)
          (favorites s) (filters s) (currentPage s) (hasMore s) (totalBooks s).

Definition setLoadingMore (v : bool) (s : State) : State :=
  mkState (searchQuery s) (searchType s) (books s) (loading s) v (error s)
          (favorites s) (filters s) (currentPage s) (hasMore s) (totalBooks s).

Definition setError (v : string) (s : State) : State :=
  mkState (searchQuery s) (searchType s) (books s) (loading s) (loadingMore s) v
          (favorites s) (filters s) (currentPage s) (hasMore s) (totalBooks s).

Definition setFavorites (v : list Book) (s : State) : State :=
  mkState (searchQuery s) (searchType s) (books s) (loading s) (loadingMore s)
          (error s) v (filters s) (currentPage s) (hasMore s) (totalBooks s).

Definition setFilters (v : Filters) (s : State) : State :=
  mkState (searchQuery s) (searchType s) (books s) (loading s) (loadingMore s)
          (error s) (favorites s) v (currentPage s) (hasMore s) (totalBooks s).

Definition setCurrentPage (v : nat) (s : State) : State :=
  mkState (searchQuery s) (searchType s) (books s) (loading s) (loadingMore s)
          (error s) (favorites s) (filters s) v (hasMore s) (totalBooks s).

Definition setHasMore (v : bool) (s : State) : State :=
  mkState (searchQuery s) (searchType s) (books s) (loading s) (loadingMore s)
          (error s) (favorites s) (filters s) (currentPage s) v (totalBooks s).

Definition setTotalBooks (v : Z) (s : State) : State :=
  mkState (searchQuery s) (searchType s) (books s) (loading s) (loadingMore s)
          (error s) (favorites s) (filters s) (currentPage s) (hasMore s) v.

(** ** The catalogue request and its outcomes *)

(** [const limit = 20]. *)
Definition limit : nat := 20.

(** The suspended [performSearch] call: the URL it fetched, as the list of
    its parameters, and the arguments its continuation still uses. *)
Record Request := mkRequest {
  rq_param : string;        (* title / author / subject / isbn / q *)
  rq_query : jsstring;
  rq_language : string;     (* empty when the filter is not appended *)
  rq_publishYear : string;
  rq_limit : nat;
  rq_offset : nat;
  rq_page : nat;
  rq_isNewSearch : bool
}.

(** What the two [await]s can produce. *)
Inductive FetchResult :=
| Rejected                     (* fetch() rejects: transport failure *)
| NotOk                        (* response.ok is false *)
| BodyError                    (* response.json() rejects, or the body is null *)
| Json (docs : option (list Book)) (numFound : option Z).

(** The [switch (searchType)] choosing the query parameter. *)
Definition paramOf (ty : string) : string :=
  if String.eqb ty "title" then "title"
  else if String.eqb ty "author" then "author"
  else if String.eqb ty "subject" then "subject"
  else if String.eqb ty "isbn" then "isbn"
  else "q".

Definition msgEmpty : string := "Please enter a search term".
Definition msgNone : string := "No books found matching your search criteria".
Definition msgFailed : string :=
  "Failed to search books. Please check your internet connection and try again.".

(** [data.numFound || 0]: absent, null and 0 all give 0. *)
Definition numFoundOr0 (n : option Z) : Z :=
  match n with Some z => z | None => 0%Z end.

(** ** The request URL *)

(** [encodeURIComponent] leaves letters, digits and [- _ . ! ~ * ' ( )]
    as they are. *)
Definition isAlnum (c : N) : bool :=
  ((48 <=? c) && (c <=? 57) || (65 <=? c) && (c <=? 90)
   || (97 <=? c) && (c <=? 122))%N.

Definition isUnreserved (c : N) : bool :=
  (isAlnum c || (c =? 45) || (c =? 95) || (c =? 46) || (c =? 33)
   || (c =? 126) || (c =? 42) || (c =? 39) || (c =? 40) || (c =? 41))%N.

(** Leading and trailing surrogate code units. *)
Definition isHighSurrogate (c : N) : bool := ((55296 <=? c) && (c <=? 56319))%N.
Definition isLowSurrogate (c : N) : bool := ((56320 <=? c) && (c <=? 57343))%N.

Definition codePointOfPair (hi lo : N) : N :=
  ((hi - 55296) * 1024 + (lo - 56320) + 65536)%N.

(** The UTF-8 octets of a code point. *)
Definition utf8 (cp : N) : list N :=
  (if cp <? 128 then [cp]
   else if cp <? 2048 then [192 + cp / 64; 128 + cp mod 64]
   else if cp <? 65536
        then [224 + cp / 4096; 128 + (cp / 64) mod 64; 128 + cp mod 64]
        else [240 + cp / 262144; 128 + (cp / 4096) mod 64;
              128 + (cp / 64) mod 64; 128 + cp mod 64])%N.

Definition hexDigit (n : N) : ascii :=
  match String.get (N.to_nat n) "0123456789ABCDEF" with
  | Some a => a
  | None => "0"%char
  end.

(** One octet as [%XX], upper-case. *)
Definition percentOctet (b : N) : string :=
  String "%" (String (hexDigit (b / 16)) (String (hexDigit (b mod 16)) EmptyString)).

Fixpoint percentOctets (bs : list N) : string :=
  match bs with
  | [] => EmptyString
  | b :: bs' => (percentOctet b ++ percentOctets bs')%string
  end.

(** [encodeURIComponent]; [None] is the [URIError] thrown on a surrogate
    code unit that is not part of a pair. *)
Fixpoint encodeURIComponent (q : jsstring) : option string :=
  match q with
  | [] => Some EmptyString
  | c :: q' =>
      if isUnreserved c
      then option_map (String (ascii_of_N c)) (encodeURIComponent q')
      else if isLowSurrogate c then None
      else if isHighSurrogate c
      then match q' with
           | d :: q'' =>
               if isLowSurrogate d
               then option_map (append (percentOctets (utf8 (codePointOfPair c d))))
                               (encodeURIComponent q'')
               else None
           | [] => None
           end
      else option_map (append (percentOctets (utf8 c))) (encodeURIComponent q')
  end.

(** [String.prototype.isWellFormed]: no surrogate outside a pair. *)
Fixpoint isWellFormed (q : jsstring) : bool :=
  match q with
  | [] => true
  | c :: q' =>
      if isLowSurrogate c then false
      else if isHighSurrogate c
      then match q' with
           | d :: q'' => isLowSurrogate d && isWellFormed q''
           | [] => false
           end
      else isWellFormed q'
  end.

(** A number in a template literal. *)
Definition decimal (n : nat) : string := NilZero.string_of_uint (Nat.to_uint n).

(** The URL assembled by [performSearch] (lines 101-124); [None] when
    [encodeURIComponent] throws. *)
Definition buildUrl (ty : string) (fl : Filters) (query : jsstring) (page : nat)
  : option string :=
  match encodeURIComponent query with
  | None => None
  | Some q =>
      Some ("https://openlibrary.org/search.json?" ++ paramOf ty ++ "=" ++ q
            ++ (if nonempty (language fl)
                then "&language=" ++ language fl else EmptyString)
            ++ (if nonempty (publishYear fl)
                then "&first_publish_year=" ++ publishYear fl else EmptyString)
            ++ "&limit=" ++ decimal limit
            ++ "&offset=" ++ decimal (page * limit))%string
  end.

(** ** [performSearch] *)

(** The part of [performSearch] before [await fetch(url)].  [ty] and [fl]
    are the [searchType] and [filters] of the closure the function was
    created in.  The second component is the request sent, if any.  The
    URL is built inside the [try]: when [encodeURIComponent] throws, the
    [catch] and [finally] blocks run at once and nothing is fetched. *)
Definition performSearch (ty : string) (fl : Filters)
    (query : jsstring) (page : nat) (isNewSearch : bool) (s : State)
  : State * option Request :=
  if negb (truthy (trim query)) then (setError msgEmpty s, None)
  else
    let s1 :=
      if isNewSearch
      then setCurrentPage 0 (setBooks [] (setLoading true s))
      else setLoadingMore true s in
    let s2 := setError EmptyString s1 in
    match buildUrl ty fl query page with
    | Some _ =>
        (s2, Some (mkRequest (paramOf ty) query (language fl) (publishYear fl)
                             limit (page * limit) page isNewSearch))
    | None =>
        (setLoadingMore false (setLoading false (setError msgFailed s2)), None)
    end.

(** The [if (data.docs) ... else ...] block. *)
Definition applyData (page : nat) (isNewSearch : bool)
    (docs : option (list Book)) (numFound : option Z) (s : State) : State :=
  match docs with
  | Some ds =>
      let s1 := setTotalBooks (numFoundOr0 numFound) s in
      let s2 := if isNewSearch then setBooks ds s1
                else setBooks (books s1 ++ ds) s1 in
      let s3 := setCurrentPage page s2 in
      let s4 := setHasMore ((List.length ds =? limit)%nat
                            && (Z.of_nat ((page + 1) * limit)
                                <? numFoundOr0 numFound)%Z) s3 in
      if (List.length ds =? 0)%nat && isNewSearch then setError msgNone s4 else s4
  | None =>
      if isNewSearch then setError msgNone s else s
  end.

(** The part of [performSearch] after the [await]s: the rest of the [try]
    block, the [catch] and the [finally], run on the state current when
    the response arrives. *)
Definition performSearch_resume (rq : Request) (r : FetchResult) (s : State)
  : State :=
  let s1 :=
    match r with
    | Json docs numFound => applyData (rq_page rq) (rq_isNewSearch rq) docs numFound s
    | Rejected | NotOk | BodyError => setError msgFailed s
    end in
  setLoadingMore false (setLoading false s1).

(** [loadMoreBooks]. *)
Definition loadMoreBooks (s : State) : State * option Request :=
  if hasMore s && negb (loadingMore s) && negb (loading s)
  then performSearch (searchType s) (filters s) (searchQuery s)
                     (currentPage s + 1) false s
  else (s, None).

(** [searchBooks]. *)
Definition searchBooks (s : State) : State * option Request :=
  performSearch (searchType s) (filters s) (searchQuery s) 0 true s.

(** ** Favourites *)

Definition sameKey (a b : Book) : bool := String.eqb (key a) (key b).

(** [favorites.some(fav => fav.key === book.key)]. *)
Definition isFavorite (s : State) (book : Book) : bool :=
  existsb (fun fav => sameKey fav book) (favorites s).

Definition toggleFavorite (book : Book) (s : State) : State :=
  let isAlreadyFavorite := existsb (fun fav => sameKey fav book) (favorites s) in
  if isAlreadyFavorite
  then setFavorites (filter (fun fav => negb (sameKey fav book)) (favorites s)) s
  else setFavorites (favorites s ++ [book]) s.

(** ** The component as an event-driven system *)

(** Besides the state cells, the component owns the pending debounce
    timeout ([debounceTimer], with the query its callback captured), the
    [performSearch] calls suspended at their [await], oldest first, and
    the [IntersectionObserver].  The observer is created by the effect
    with dependencies [[hasMore, loadingMore, loading]]: its callback holds
    the closures of the render in which the effect last ran
    ([observerRender]), and it watches the load-more element of that
    render, which is in the page only while the result list is shown
    ([observing]). *)
Record World := mkWorld {
  ui : State;
  debounceTimer : option jsstring;
  inflight : list Request;
  observerRender : State;
  observing : bool
}.

(** After mounting: the effect has run on the initial render, in which
    there is no load-more element. *)
Definition initialWorld : World := mkWorld initialState None [] initialState false.

(** Run the synchronous prefix of a [performSearch] call and register the
    request it sent. *)
Definition launch (w : World) (call : State -> State * option Request) : World :=
  match call (ui w) with
  | (s', Some rq) =>
      mkWorld s' (debounceTimer w) (inflight w ++ [rq])
              (observerRender w) (observing w)
  | (s', None) =>
      mkWorld s' (debounceTimer w) (inflight w) (observerRender w) (observing w)
  end.

Fixpoint remove_nth {A} (i : nat) (l : list A) : list A :=
  match l, i with
  | [], _ => []
  | _ :: l', O => l'
  | x :: l', S i' => x :: remove_nth i' l'
  end.

(** The effect with dependencies [[searchQuery, debouncedSearch]]: its
    cleanup clears the pending timeout, then its body either calls
    [debouncedSearch(searchQuery)], which schedules a new timeout, or
    empties the result list. *)
Definition searchQueryEffect (w : World) : World :=
  let s := ui w in
  if truthy (searchQuery s)
  then mkWorld s (Some (searchQuery s)) (inflight w)
               (observerRender w) (observing w)
  else mkWorld (setTotalBooks 0 (setHasMore false (setBooks [] s))) None
               (inflight w) (observerRender w) (observing w).

(** [onChange] of the text input: [setSearchQuery(e.target.value)].  The
    effect above runs only when [searchQuery] has changed. *)
Definition onChange (text : jsstring) (w : World) : World :=
  if jsstring_eq_dec text (searchQuery (ui w)) then w
  else searchQueryEffect
         (mkWorld (setSearchQuery text (ui w)) (debounceTimer w) (inflight w)
                  (observerRender w) (observing w)).

(** The timeout callback of [debouncedSearch].  [debouncedSearch] is
    memoised with an empty dependency list, so the [performSearch] it calls
    is the one of the first render, whose [searchType] and [filters] are
    the initial ones. *)
Definition debounceElapsed (w : World) : World :=
  match debounceTimer w with
  | None => w
  | Some query =>
      let w' := mkWorld (ui w) None (inflight w)
                        (observerRender w) (observing w) in
      if truthy (trim query)
      then launch w' (performSearch (searchType initialState) (filters initialState)
                                    query 0 true)
      else w'
  end.

(** [loadMoreBooks] as created in the render whose state is [render],
    run on the current state [s]: the guard and the arguments of
    [performSearch] are those of that render, the setters act on [s].
    [loadMoreBooks s] above is the function of the latest render. *)
Definition loadMoreBooks_of (render s : State) : State * option Request :=
  if hasMore render && negb (loadingMore render) && negb (loading render)
  then performSearch (searchType render) (filters render) (searchQuery render)
                     (currentPage render + 1) false s
  else (s, None).

(** The [IntersectionObserver] callback: its [hasMore], [loadingMore],
    [loading] and [loadMoreBooks] are those of the render that created the
    observer. *)
Definition observerCallback (isIntersecting : bool) (w : World) : World :=
  let r := observerRender w in
  if isIntersecting && hasMore r && negb (loadingMore r) && negb (loading r)
  then launch w (loadMoreBooks_of r)
  else w.

(** The response to the [i]-th suspended call arrives. *)
Definition arrive (i : nat) (r : FetchResult) (w : World) : World :=
  match nth_error (inflight w) i with
  | None => w
  | Some rq =>
      mkWorld (performSearch_resume rq r (ui w)) (debounceTimer w)
              (remove_nth i (inflight w)) (observerRender w) (observing w)
  end.

Inductive Event :=
| Change (text : jsstring)          (* typing in the search box *)
| DebounceElapsed                   (* 500 ms without typing *)
| Submit                            (* Search button or Enter: searchBooks *)
| NearEnd                           (* the load-more trigger became visible *)
| Arrive (i : nat) (r : FetchResult)
| Toggle (book : Book)              (* heart button *)
| SelectType (ty : string)
| SelectFilters (fl : Filters).

(** The handler of an event.  The load-more element can only become
    visible while the observer watches an element that is in the page. *)
Definition handle (e : Event) (w : World) : World :=
  match e with
  | Change text => onChange text w
  | DebounceElapsed => debounceElapsed w
  | Submit => launch w searchBooks
  | NearEnd => if observing w then observerCallback true w else w
  | Arrive i r => arrive i r w
  | Toggle book =>
      mkWorld (toggleFavorite book (ui w)) (debounceTimer w) (inflight w)
              (observerRender w) (observing w)
  | SelectType ty =>
      mkWorld (setSearchType ty (ui w)) (debounceTimer w) (inflight w)
              (observerRender w) (observing w)
  | SelectFilters fl =>
      mkWorld (setFilters fl (ui w)) (debounceTimer w) (inflight w)
              (observerRender w) (observing w)
  end.

(** The three values the infinite-scroll effect depends on (line 82). *)
Definition sameDeps (a b : State) : bool :=
  Bool.eqb (hasMore a) (hasMore b) && Bool.eqb (loadingMore a) (loadingMore b)
  && Bool.eqb (loading a) (loading b).

(** The result list, and with it the load-more element, is rendered only
    when [books.length > 0]. *)
Definition listShown (s : State) : bool :=
  match books s with [] => false | _ :: _ => true end.

(** The render that follows a handler (the state updates of one handler
    are committed together).  If [hasMore], [loadingMore] or [loading]
    differ from those of the render that created the observer, the effect
    runs again: the old observer is disconnected and a new one, holding
    the closures of this render, watches the load-more element if there
    is one.  Otherwise the observer is kept, and it watches an element of
    the page as long as the list has stayed shown. *)
Definition commit (w : World) : World :=
  if sameDeps (ui w) (observerRender w)
  then mkWorld (ui w) (debounceTimer w) (inflight w)
               (observerRender w) (observing w && listShown (ui w))
  else mkWorld (ui w) (debounceTimer w) (inflight w) (ui w) (listShown (ui w)).

Definition step (e : Event) (w : World) : World := commit (handle e w).

Definition run (es : list Event) (w : World) : World :=
  fold_left (fun w e => step e w) es w.

(** ** The session status of the specification, read off the state cells *)

Inductive Status := Idle | Loading | LoadingMore | Error.

Definition status (s : State) : Status :=
  if loading s then Loading
  else if loadingMore s then LoadingMore
  else if nonempty (error s) then Error
  else Idle.

(** ** Pages and sessions *)

(** A successful response: a [docs] array and possibly a [numFound]. *)
Definition page (ds : list Book) (numFound : option Z) : FetchResult :=
  Json (Some ds) numFound.

(** A new-session search answered by [r]. *)
Definition newSession (r : FetchResult) (s : State) : option State :=
  match searchBooks s with
  | (s', Some rq) => Some (performSearch_resume rq r s')
  | (_, None) => None
  end.

(** One continuation answered by [r]; [None] when [loadMoreBooks] sent
    nothing. *)
Definition continuation (r : FetchResult) (s : State) : option State :=
  match loadMoreBooks s with
  | (s', Some rq) => Some (performSearch_resume rq r s')
  | (_, None) => None
  end.

(** [k] successful continuations, one after the other. *)
Fixpoint continuations (ps : list (list Book * option Z)) (s : State)
  : option State :=
  match ps with
  | [] => Some s
  | (ds, n) :: ps' =>
      match continuation (page ds n) s with
      | Some s' => continuations ps' s'
      | None => None
      end
  end.

(** A session: one new-session page followed by continuations. *)
Definition session (p0 : list Book * option Z) (ps : list (list Book * option Z))
    (s : State) : option State :=
  match newSession (page (fst p0) (snd p0)) s with
  | Some s' => continuations ps s'
  | None => None
  end.

(** Sample records: [n] books with consecutive keys starting at [from]. *)
Definition sampleBook (i : nat) : Book :=
  mkBook ("/works/OL" ++ NilZero.string_of_uint (Nat.to_uint i) ++ "W")%string "Dune".

Definition sampleBooks (from n : nat) : list Book :=
  map sampleBook (seq from n).

(** ** Auxiliary definitions for the properties *)

(** The outcomes that reach the [catch] block. *)
Definition failed (r : FetchResult) : bool :=
  match r with
  | Json _ _ => false
  | Rejected | NotOk | BodyError => true
  end.

(** What the response to a new-session request leaves in the list: its
    records if it carries a [docs] array, the list as it was otherwise. *)
Definition recordsAfter (r : FetchResult) (old : list Book) : list Book :=
  match r with
  | Json (Some ds) _ => ds
  | _ => old
  end.




(** The observer callback reads the current [hasMore], [loadingMore] and
    [loading]. *)
Definition observerCurrent (w : World) : Prop :=
  sameDeps (ui w) (observerRender w) = true.

(** ** Concrete runs *)

Definition dune : jsstring := str "dune".

Definition afterPage0 : World :=
  run [Change dune; DebounceElapsed;
       Arrive 0 (page (sampleBooks 0 20) (Some 45%Z))] initialWorld.

Definition afterPage1 : World :=
  run [NearEnd; Arrive 0 (page (sampleBooks 20 20) (Some 45%Z))] afterPage0.

Definition afterPage2 : World :=
  run [NearEnd; Arrive 0 (page (sampleBooks 40 5) (Some 45%Z))] afterPage1.

Definition emma : jsstring := str "emma".

(** Two new-session searches, for "dune" and then for "emma", both in
    flight; the response for "emma" has arrived. *)
Definition twoSearches : World :=
  run [Change dune; Submit; Change emma; Submit;
       Arrive 1 (page (sampleBooks 100 2) (Some 2%Z))] initialWorld.



(** ** The shape of every handler *)

(** What a handler does to the state cells, the timer and the calls in
    flight: nothing, a change of the text, a call of [performSearch]
    (possibly after the timer was taken), an arrival, or a plain update
    of the favourites, the type or the filters. *)
Inductive Handled (w : World) : World -> Prop :=
| H_same : Handled w w
| H_change (text : jsstring) : Handled w (onChange text w)
| H_taken :
    Handled w (mkWorld (ui w) None (inflight w) (observerRender w) (observing w))
| H_search (timer : option jsstring) (ty : string) (fl : Filters)
            (query : jsstring) (pg : nat) (isNewSearch : bool) :
    timer = debounceTimer w \/ timer = None ->
    Handled w (launch (mkWorld (ui w) timer (inflight w)
                               (observerRender w) (observing w))
                      (performSearch ty fl query pg isNewSearch))
| H_arrive (i : nat) (r : FetchResult) (rq : Request) :
    nth_error (inflight w) i = Some rq ->
    Handled w (mkWorld (performSearch_resume rq r (ui w)) (debounceTimer w)
                       (remove_nth i (inflight w))
                       (observerRender w) (observing w))
| H_toggle (book : Book) :
    Handled w (mkWorld (toggleFavorite book (ui w)) (debounceTimer w)
                       (inflight w) (observerRender w) (observing w))
| H_type (ty : string) :
    Handled w (mkWorld (setSearchType ty (ui w)) (debounceTimer w)
                       (inflight w) (observerRender w) (observing w))
| H_filters (fl : Filters) :
    Handled w (mkWorld (setFilters fl (ui w)) (debounceTimer w)
                       (inflight w) (observerRender w) (observing w)).

(** ** Invariants of the event system *)

(** The pending debounce timeout, if any, carries the current text. *)
Definition timerCurrent (w : World) : Prop :=
  debounceTimer w = None \/ debounceTimer w = Some (searchQuery (ui w)).

(** A spinner is shown. *)
Definition busy (s : State) : bool := loading s || loadingMore s.

(** A loading flag is set only while some call is in flight. *)
Definition busyHasRequest (w : World) : Prop :=
  busy (ui w) = true -> inflight w <> [].

(** The bound that [hasMore] promises. *)
Definition moreIsBelowTotal (s : State) : Prop :=
  hasMore s = true -> (Z.of_nat ((currentPage s + 1) * limit) < totalBooks s)%Z.

(** When more is promised, the records held are exactly the pages fetched. *)
Definition aligned (s : State) : Prop :=
  hasMore s = true -> List.length (books s) = (currentPage s + 1) * limit.

Definition isToggle (e : Event) : bool :=
  match e with Toggle _ => true | _ => false end.

(** The request of the debounced search for [query]. *)
Definition autoRequest (query : jsstring) : Request :=
  mkRequest "title" query EmptyString EmptyString limit 0 0 true.

(** After a response carrying page [ds], more is promised only if the page
    was full. *)
Definition fullIfMore (s : State) (ds : list Book) : Prop :=
  hasMore s = true -> List.length ds = limit.

(** The service answers honestly about a result set of [total] records:
    page [i] holds the records from 20 [i] on, at most 20 of them, and
    reports [numFound = total]. *)
Fixpoint honestPages (total i : nat) (ps : list (list Book * option Z)) : bool :=
  match ps with
  | [] => true
  | (ds, nf) :: ps' =>
      (List.length ds =? Nat.min limit (total - limit * i))%nat
      && match nf with Some n => (n =? Z.of_nat total)%Z | None => false end
      && honestPages total (S i) ps'
  end.

(** The records held are the first pages of a result set of [total]
    records, and [hasMore] tells whether some are missing. *)
Definition holdsFirstPages (total : nat) (s : State) : Prop :=
  let k := currentPage s in
  limit * k <= total
  /\ List.length (books s) = limit * k + Nat.min limit (total - limit * k)
  /\ hasMore s = ((Nat.min limit (total - limit * k) =? limit)%nat
                  && (Z.of_nat ((k + 1) * limit) <? Z.of_nat total)%Z).

(** ** The URL that is fetched *)

(** [performSearch] up to its [await], returning the URL it fetches in
    place of the request record. *)
Definition performSearch_url (ty : string) (fl : Filters)
    (query : jsstring) (page : nat) (isNewSearch : bool) (s : State)
  : State * option string :=
  if negb (truthy (trim query)) then (setError msgEmpty s, None)
  else
    let s1 :=
      if isNewSearch
      then setCurrentPage 0 (setBooks [] (setLoading true s))
      else setLoadingMore true s in
    let s2 := setError EmptyString s1 in
    match buildUrl ty fl query page with
    | Some url => (s2, Some url)
    | None =>
        (setLoadingMore false (setLoading false (setError msgFailed s2)), None)
    end.

(** Characters an encoded query text can contain. *)
Definition isUrlSafe (a : ascii) : bool :=
  Ascii.eqb a "%" || isUnreserved (N_of_ascii a).

Fixpoint allUrlSafe (s : string) : bool :=
  match s with
  | EmptyString => true
  | String a s' => isUrlSafe a && allUrlSafe s'
  end.

Fixpoint occurs (a : ascii) (s : string) : bool :=
  match s with
  | EmptyString => false
  | String b s' => Ascii.eqb a b || occurs a s'
  end.

(** ** Cover images *)

(** An integer in a template literal. *)
Definition decimalZ (z : Z) : string := NilZero.string_of_int (Z.to_int z).

(** [Number.MAX_SAFE_INTEGER], 2^53 - 1. *)
Definition maxSafeInteger : Z := 9007199254740991.

(** The [cover_i] of a record: an integer of the response.  It reaches
    the code as a JavaScript number, which holds it exactly, and prints it
    in plain decimal, when it is a safe integer; the model covers these. *)
Record CoverId := mkCoverId {
  coverValue : Z;
  coverSafe : (Z.abs coverValue <=? maxSafeInteger)%Z = true
}.

(** [getCoverImageUrl], as a function of the record's [cover_i] field
    ([None] when the record has none).  [if (book.cover_i)] is false for a
    missing field and for 0. *)
Definition getCoverImageUrl (cover_i : option CoverId) : option string :=
  match cover_i with
  | Some id =>
      if (coverValue id =? 0)%Z then None
      else Some ("https://covers.openlibrary.org/b/id/"
                 ++ decimalZ (coverValue id) ++ "-M.jpg")%string
  | None => None
  end.

(** * Properties *)

(** ** Facts about [trim] *)

Lemma forallb_rev {A} (f : A -> bool) (l : list A) :
  forallb f (rev l) = forallb f l.
Proof.
  induction l as [|x l IH]; simpl; [reflexivity|].
  rewrite forallb_app, IH; simpl.
  rewrite andb_true_r. apply andb_comm.
Qed.

Lemma trimStart_nil_iff (q : jsstring) :
  trimStart q = [] <-> forallb is_js_space q = true.
Proof.
  induction q as [|c q IH]; simpl.
  - tauto.
  - destruct (is_js_space c); simpl; [exact IH|].
    split; discriminate.
Qed.

(** What [trimStart] leaves starts with a character that is not a space. *)
Lemma trimStart_spaces_nil (q : jsstring) :
  forallb is_js_space (trimStart q) = true -> trimStart q = [].
Proof.
  induction q as [|c q IH]; simpl; [reflexivity|].
  destruct (is_js_space c) eqn:Hc; [exact IH|].
  simpl. rewrite Hc. discriminate.
Qed.

Lemma rev_nil_iff {A} (l : list A) : rev l = [] <-> l = [].
Proof.
  split; intros H.
  - rewrite <- (rev_involutive l), H. reflexivity.
  - subst. reflexivity.
Qed.

(** [trim] gives the empty string exactly on the texts made of white space
    only (the empty text among them). *)
Lemma trim_nil_iff (q : jsstring) :
  trim q = [] <-> forallb is_js_space q = true.
Proof.
  unfold trim, trimEnd. split; intros H.
  - apply rev_nil_iff, trimStart_nil_iff in H.
    rewrite forallb_rev in H.
    apply trimStart_nil_iff, trimStart_spaces_nil, H.
  - apply trimStart_nil_iff in H. rewrite H. reflexivity.
Qed.

Lemma truthy_false_iff (q : jsstring) : truthy q = false <-> q = [].
Proof. destruct q; simpl; split; congruence. Qed.

Lemma blank_not_truthy (q : jsstring) :
  forallb is_js_space q = true -> truthy (trim q) = false.
Proof. intros H. apply truthy_false_iff, trim_nil_iff, H. Qed.

(** ** Texts that cannot be encoded *)

(** Induction for functions that consume one or two code units at a time. *)
Lemma two_step_ind (P : jsstring -> Prop) :
  P [] ->
  (forall c q, P q -> (forall d q', q = d :: q' -> P q') -> P (c :: q)) ->
  forall q, P q.
Proof.
  intros Hnil Hstep q.
  assert (H : P q /\ (forall d q', q = d :: q' -> P q')).
  { induction q as [|c q [IH1 IH2]].
    - split; [exact Hnil|]. intros d q' E. discriminate E.
    - split; [apply Hstep; assumption|].
      intros d q' E. inversion E; subst. exact IH1. }
  apply H.
Qed.

Lemma isUnreserved_small (c : N) : isUnreserved c = true -> (c < 256)%N.
Proof.
  unfold isUnreserved, isAlnum. intros H.
  repeat (apply orb_true_iff in H; destruct H as [H|H]);
    repeat (apply andb_true_iff in H; destruct H as [H ?]);
    repeat match goal with
           | X : (_ <=? _)%N = true |- _ => apply N.leb_le in X
           | X : (_ =? _)%N = true |- _ => apply N.eqb_eq in X
           end; lia.
Qed.

Lemma encodeURIComponent_None_iff (q : jsstring) :
  encodeURIComponent q = None <-> isWellFormed q = false.
Proof.
  induction q as [|c q IH1 IH2] using two_step_ind.
  - simpl. split; discriminate.
  - cbn [encodeURIComponent isWellFormed].
    assert (Hu : isUnreserved c = true ->
                 isLowSurrogate c = false /\ isHighSurrogate c = false).
    { intros H. apply isUnreserved_small in H.
      unfold isLowSurrogate, isHighSurrogate. split;
        apply andb_false_iff; left; apply N.leb_gt; lia. }
    destruct (isUnreserved c) eqn:Eu.
    + destruct (Hu eq_refl) as [-> ->].
      rewrite <- IH1. destruct (encodeURIComponent q); simpl; split; congruence.
    + destruct (isLowSurrogate c); [tauto|].
      destruct (isHighSurrogate c).
      * destruct q as [|d q'']; [tauto|].
        destruct (isLowSurrogate d); simpl; [|tauto].
        rewrite <- (IH2 d q'' eq_refl).
        destruct (encodeURIComponent q''); simpl; split; congruence.
      * rewrite <- IH1.
        destruct (encodeURIComponent q); simpl; split; congruence.
Qed.

(** ** Renders *)

(** Committing a render touches nothing but the observer. *)
Lemma commit_fields (w : World) :
  ui (commit w) = ui w
  /\ debounceTimer (commit w) = debounceTimer w
  /\ inflight (commit w) = inflight w.
Proof. unfold commit. destruct (sameDeps (ui w) (observerRender w)); auto. Qed.

Lemma step_ui (e : Event) (w : World) : ui (step e w) = ui (handle e w).
Proof. apply commit_fields. Qed.

Lemma step_timer (e : Event) (w : World) :
  debounceTimer (step e w) = debounceTimer (handle e w).
Proof. apply commit_fields. Qed.

Lemma step_inflight (e : Event) (w : World) :
  inflight (step e w) = inflight (handle e w).
Proof. apply commit_fields. Qed.

Lemma step_arrive (i : nat) (r : FetchResult) (rq : Request) (w : World) :
  nth_error (inflight w) i = Some rq ->
  ui (step (Arrive i r) w) = performSearch_resume rq r (ui w)
  /\ inflight (step (Arrive i r) w) = remove_nth i (inflight w).
Proof.
  intros H. rewrite step_ui, step_inflight. cbn [handle]. unfold arrive.
  rewrite H. auto.
Qed.

(** ** Validation *)

(** C5.  [performSearch] called with an empty or white-space-only query
    text sets the validation message "Please enter a search term" and
    returns: no request is sent (none is added to the calls in flight),
    and [books] and every other cell but [error] keep their values. *)
Theorem blank_query_is_rejected
    (ty : string) (fl : Filters) (query : jsstring) (pg : nat) (isNewSearch : bool)
    (w : World) :
  forallb is_js_space query = true ->
  performSearch ty fl query pg isNewSearch (ui w) = (setError msgEmpty (ui w), None)
  /\ inflight (launch w (performSearch ty fl query pg isNewSearch)) = inflight w
  /\ books (ui (launch w (performSearch ty fl query pg isNewSearch))) = books (ui w)
  /\ error (ui (launch w (performSearch ty fl query pg isNewSearch))) = msgEmpty.
Proof.
  intros Hblank.
  assert (E : performSearch ty fl query pg isNewSearch (ui w)
              = (setError msgEmpty (ui w), None)).
  { unfold performSearch. rewrite (blank_not_truthy _ Hblank). reflexivity. }
  unfold launch. rewrite E. simpl. auto.
Qed.

Lemma blank_query_is_rejected_witness :
  let w := mkWorld (setBooks (sampleBooks 0 3) initialState) None []
                   initialState false in
  let query := str "   " in
  inflight (launch w (performSearch "title" noFilters query 0 true)) = []
  /\ books (ui (launch w (performSearch "title" noFilters query 0 true)))
     = sampleBooks 0 3.
Proof.
  intros w query.
  destruct (blank_query_is_rejected "title" noFilters query 0 true w eq_refl)
    as (_ & H1 & H2 & _).
  split; [exact H1 | exact H2].
Defined.

(** ** The has-more flag *)

Lemma resume_page_fields (rq : Request) (ds : list Book) (nf : option Z) (s : State) :
  let s' := performSearch_resume rq (page ds nf) s in
  totalBooks s' = numFoundOr0 nf
  /\ currentPage s' = rq_page rq
  /\ hasMore s' = ((List.length ds =? limit)%nat
                   && (Z.of_nat ((rq_page rq + 1) * limit) <? numFoundOr0 nf)%Z)
  /\ books s' = (if rq_isNewSearch rq then ds else books s ++ ds)
  /\ loading s' = false /\ loadingMore s' = false.
Proof.
  unfold performSearch_resume, page, applyData.
  destruct (rq_isNewSearch rq), ((List.length ds =? 0)%nat); simpl; auto 10.
Qed.

Lemma buildUrl_None_iff (ty : string) (fl : Filters) (query : jsstring) (pg : nat) :
  buildUrl ty fl query pg = None <-> isWellFormed query = false.
Proof.
  rewrite <- encodeURIComponent_None_iff. unfold buildUrl.
  destruct (encodeURIComponent query); split; congruence.
Qed.

Lemma buildUrl_wellFormed (ty : string) (fl : Filters) (query : jsstring) (pg : nat) :
  isWellFormed query = true -> exists url, buildUrl ty fl query pg = Some url.
Proof.
  intros H. destruct (buildUrl ty fl query pg) as [url|] eqn:E; [eauto|].
  apply buildUrl_None_iff in E. congruence.
Qed.

Lemma performSearch_sends (ty : string) (fl : Filters) (query : jsstring)
    (pg : nat) (isNewSearch : bool) (s : State) :
  truthy (trim query) = true ->
  isWellFormed query = true ->
  performSearch ty fl query pg isNewSearch s =
    (setError EmptyString (if isNewSearch
                  then setCurrentPage 0 (setBooks [] (setLoading true s))
                  else setLoadingMore true s),
     Some (mkRequest (paramOf ty) query (language fl) (publishYear fl)
                     limit (pg * limit) pg isNewSearch)).
Proof.
  intros H Hw. unfold performSearch. rewrite H.
  destruct (buildUrl_wellFormed ty fl query pg Hw) as [url ->]. reflexivity.
Qed.

(** A text that is not blank but cannot be encoded: nothing is sent. *)
Lemma performSearch_malformed (ty : string) (fl : Filters) (query : jsstring)
    (pg : nat) (isNewSearch : bool) (s : State) :
  truthy (trim query) = true ->
  isWellFormed query = false ->
  performSearch ty fl query pg isNewSearch s =
    (setLoadingMore false
       (setLoading false
          (setError msgFailed
             (setError EmptyString
                (if isNewSearch
                 then setCurrentPage 0 (setBooks [] (setLoading true s))
                 else setLoadingMore true s)))),
     None).
Proof.
  intros H Hw. unfold performSearch. rewrite H.
  apply (buildUrl_None_iff ty fl query pg) in Hw. rewrite Hw. reflexivity.
Qed.

Lemma performSearch_sent_inv (ty : string) (fl : Filters) (query : jsstring)
    (pg : nat) (isNewSearch : bool) (s s1 : State) (rq : Request) :
  performSearch ty fl query pg isNewSearch s = (s1, Some rq) ->
  truthy (trim query) = true
  /\ s1 = setError EmptyString (if isNewSearch
                       then setCurrentPage 0 (setBooks [] (setLoading true s))
                       else setLoadingMore true s)
  /\ rq_page rq = pg /\ rq_isNewSearch rq = isNewSearch /\ rq_query rq = query.
Proof.
  unfold performSearch. destruct (truthy (trim query)); simpl; intros H.
  - destruct (buildUrl ty fl query pg); [|discriminate].
    inversion H; subst; simpl. auto.
  - discriminate.
Qed.

Lemma performSearch_sent_request (ty : string) (fl : Filters) (query : jsstring)
    (pg : nat) (isNewSearch : bool) (s s1 : State) (rq : Request) :
  performSearch ty fl query pg isNewSearch s = (s1, Some rq) ->
  rq = mkRequest (paramOf ty) query (language fl) (publishYear fl)
                 limit (pg * limit) pg isNewSearch.
Proof.
  unfold performSearch. destruct (truthy (trim query)); simpl; intros H.
  - destruct (buildUrl ty fl query pg); [|discriminate].
    inversion H; reflexivity.
  - discriminate.
Qed.

(** C2.  After a successful page fetch (a response with a [docs] array,
    for a new search or a continuation, whatever the state it arrives in)
    [hasMore] is true only if the page held exactly 20 records and
    [(currentPage + 1) * 20 < totalBooks].  In particular a new-session
    search with a query text that is not blank and that
    [encodeURIComponent] accepts does send a request, and for any
    non-empty text whose request is answered by a page of fewer than 20
    records, [hasMore] is false afterwards. *)
Theorem hasMore_only_after_full_page :
  (forall (rq : Request) (ds : list Book) (nf : option Z) (s : State),
      let s' := performSearch_resume rq (page ds nf) s in
      hasMore s' = true ->
      List.length ds = limit
      /\ (Z.of_nat ((currentPage s' + 1) * limit) < totalBooks s')%Z)
  /\ (forall (ty : string) (fl : Filters) (query : jsstring) (s : State),
         truthy (trim query) = true ->
         isWellFormed query = true ->
         exists s1 rq, performSearch ty fl query 0 true s = (s1, Some rq))
  /\ (forall (ty : string) (fl : Filters) (query : jsstring) (s s1 : State)
             (rq : Request) (ds : list Book) (nf : option Z),
         query <> [] ->
         performSearch ty fl query 0 true s = (s1, Some rq) ->
         List.length ds < limit ->
         hasMore (performSearch_resume rq (page ds nf) s1) = false).
Proof.
  split; [|split].
  - intros rq ds nf s s' H.
    destruct (resume_page_fields rq ds nf s) as (Ht & Hp & Hh & _).
    fold s' in Ht, Hp, Hh. rewrite Hh in H.
    apply andb_true_iff in H. destruct H as [Hlen Hlt].
    apply Nat.eqb_eq in Hlen. apply Z.ltb_lt in Hlt.
    rewrite Ht, Hp. auto.
  - intros ty fl query s H Hw.
    rewrite (performSearch_sends _ _ _ _ _ _ H Hw). eauto.
  - intros ty fl query s s1 rq ds nf _ _ Hlen.
    destruct (resume_page_fields rq ds nf s1) as (_ & _ & Hh & _).
    rewrite Hh.
    replace ((List.length ds =? limit)%nat) with false; [reflexivity|].
    symmetry. apply Nat.eqb_neq. lia.
Qed.

Lemma hasMore_only_after_full_page_witness :
  let s := setSearchQuery (str "dune") initialState in
  let rq := mkRequest "title" (str "dune") EmptyString EmptyString 20 0 0 true in
  performSearch "title" noFilters (str "dune") 0 true s
    = (setLoading true s, Some rq)
  /\ hasMore (performSearch_resume rq (page (sampleBooks 0 7) (Some 7%Z))
                                   (setLoading true s)) = false
  /\ List.length (sampleBooks 0 20) = limit.
Proof.
  intros s rq.
  destruct hasMore_only_after_full_page as (Ha & _ & Hc).
  split; [reflexivity|]. split.
  - apply (Hc "title" noFilters (str "dune") s (setLoading true s) rq
              (sampleBooks 0 7) (Some 7%Z)).
    + discriminate.
    + reflexivity.
    + vm_compute. lia.
  - apply (Ha rq (sampleBooks 0 20) (Some 45%Z) s). reflexivity.
Defined.

(** C10.  A successful response with a [docs] array but no [numFound]
    sets [totalBooks] to 0 and [hasMore] to false, however many records
    (20 included) the page holds. *)
Theorem missing_numFound_means_no_more
    (rq : Request) (ds : list Book) (s : State) :
  totalBooks (performSearch_resume rq (Json (Some ds) None) s) = 0%Z
  /\ hasMore (performSearch_resume rq (Json (Some ds) None) s) = false.
Proof.
  destruct (resume_page_fields rq ds None s) as (Ht & _ & Hh & _).
  unfold page in Ht, Hh. split; [exact Ht|].
  rewrite Hh. simpl numFoundOr0.
  replace (Z.of_nat ((rq_page rq + 1) * limit) <? 0)%Z with false.
  - apply andb_false_r.
  - symmetry. apply Z.ltb_ge. lia.
Qed.

(** ** Favourites *)

Lemma sameKey_refl (b : Book) : sameKey b b = true.
Proof. apply String.eqb_refl. Qed.

Lemma existsb_filter_negb {A} (f : A -> bool) (l : list A) :
  existsb f (filter (fun x => negb (f x)) l) = false.
Proof.
  induction l as [|x l IH]; simpl; [reflexivity|].
  destruct (f x) eqn:E; simpl; [exact IH|].
  rewrite E. exact IH.
Qed.

(** One toggle flips the membership of the record's key. *)
Lemma toggleFavorite_flips (r : Book) (s : State) :
  isFavorite (toggleFavorite r s) r = negb (isFavorite s r).
Proof.
  unfold toggleFavorite, isFavorite.
  destruct (existsb (fun fav => sameKey fav r) (favorites s)) eqn:E; simpl.
  - apply (existsb_filter_negb (fun fav => sameKey fav r)).
  - rewrite existsb_app. simpl. rewrite sameKey_refl, E. reflexivity.
Qed.

Lemma existsb_filter_other (r b : Book) (l : list Book) :
  key b <> key r ->
  existsb (fun fav => sameKey fav b) (filter (fun fav => negb (sameKey fav r)) l)
  = existsb (fun fav => sameKey fav b) l.
Proof.
  intros Hne. induction l as [|x l IH]; simpl; [reflexivity|].
  destruct (sameKey x r) eqn:Exr; simpl.
  - assert (Exb : sameKey x b = false).
    { apply String.eqb_eq in Exr. apply String.eqb_neq. congruence. }
    rewrite Exb. exact IH.
  - rewrite IH. reflexivity.
Qed.

(** One toggle leaves the membership of every other key alone. *)
Lemma toggleFavorite_other (r b : Book) (s : State) :
  key b <> key r ->
  isFavorite (toggleFavorite r s) b = isFavorite s b.
Proof.
  intros Hne. unfold toggleFavorite, isFavorite.
  destruct (existsb (fun fav => sameKey fav r) (favorites s)); simpl.
  - apply existsb_filter_other, Hne.
  - rewrite existsb_app. simpl.
    assert (Hrb : sameKey r b = false) by (apply String.eqb_neq; congruence).
    rewrite Hrb, !orb_false_r. reflexivity.
Qed.

(** C9.  Toggling the same record twice restores the membership of its
    key in the favourites ([isFavorite] answers as before), and that of
    every other key.  [toggleFavorite] changes no cell but [favorites],
    and the new [favorites] and the answer of [isFavorite] are computed
    from the old [favorites] and the record alone, whatever the search
    cells hold. *)
Theorem toggleFavorite_twice (r : Book) (s : State) :
  isFavorite (toggleFavorite r (toggleFavorite r s)) r = isFavorite s r
  /\ (forall b, isFavorite (toggleFavorite r (toggleFavorite r s)) b = isFavorite s b)
  /\ toggleFavorite r s = setFavorites (favorites (toggleFavorite r s)) s
  /\ (forall favs : list Book,
         favorites (toggleFavorite r (setFavorites favs s))
           = favorites (toggleFavorite r (setFavorites favs initialState))
         /\ isFavorite (setFavorites favs s) r
           = isFavorite (setFavorites favs initialState) r).
Proof.
  assert (Hsame : isFavorite (toggleFavorite r (toggleFavorite r s)) r
                  = isFavorite s r).
  { rewrite !toggleFavorite_flips. apply negb_involutive. }
  split; [exact Hsame|]. split; [|split].
  - intros b. destruct (string_dec (key b) (key r)) as [E|E].
    + unfold isFavorite in *. unfold sameKey in *. rewrite E. exact Hsame.
    + rewrite !toggleFavorite_other by exact E. reflexivity.
  - unfold toggleFavorite.
    destruct (existsb _ (favorites s)); reflexivity.
  - intros favs. unfold toggleFavorite, isFavorite. simpl.
    destruct (existsb (fun fav => sameKey fav r) favs); split; reflexivity.
Qed.

(** ** Failing fetches *)

Lemma resume_failed (rq : Request) (r : FetchResult) (s : State) :
  failed r = true ->
  performSearch_resume rq r s
  = setLoadingMore false (setLoading false (setError msgFailed s)).
Proof. destruct r; simpl; intros H; [reflexivity..|discriminate]. Qed.

(** C6, as stated, fails.  A body without [docs] is the service error of
    the specification: a continuation answered by one ends [Idle] with
    no message, not in [Error].  And a failing response clears nothing:
    with the two records of "emma" shown, the failure of the earlier
    new-session search for "dune" leaves them in the list. *)
Lemma failed_fetch_claim_gaps :
  (inflight (step NearEnd afterPage0)
   = [mkRequest "title" dune EmptyString EmptyString 20 20 1 false]
   /\ status (ui (run [NearEnd; Arrive 0 (Json None None)] afterPage0)) = Idle
   /\ error (ui (run [NearEnd; Arrive 0 (Json None None)] afterPage0))
      = EmptyString)
  /\ (inflight twoSearches
      = [mkRequest "title" dune EmptyString EmptyString 20 0 0 true]
      /\ books (ui (step (Arrive 0 Rejected) twoSearches)) = sampleBooks 100 2
      /\ books (ui (step (Arrive 0 Rejected) twoSearches)) <> []).
Proof. vm_compute. repeat split. discriminate. Qed.

(** C6, amended.  A fetch that fails (the request is rejected, the HTTP
    status is not a success, or the body cannot be read) leaves [books] as
    it finds them and puts the controller in status [Error] with the
    connectivity message.  Hence a failed continuation keeps the records
    accumulated before it was requested, and when a new-session search
    fails with no other response in between, the records are the empty
    list the search set when it was sent.  A body without [docs] is not a
    failure: it leaves [books] as they are and clears both loading flags;
    for a new-session search it shows "No books found"; for a
    continuation it sets no message, so a continuation answered by one
    ends [Idle] with the records it started from. *)
Theorem failed_fetch_keeps_or_clears :
  (forall (r : FetchResult) (rq : Request) (s : State),
      failed r = true ->
      books (performSearch_resume rq r s) = books s
      /\ status (performSearch_resume rq r s) = Error
      /\ error (performSearch_resume rq r s) = msgFailed)
  /\ (forall (r : FetchResult) (s s1 : State) (rq : Request),
         failed r = true ->
         loadMoreBooks s = (s1, Some rq) ->
         books (performSearch_resume rq r s1) = books s
         /\ status (performSearch_resume rq r s1) = Error)
  /\ (forall (r : FetchResult) (ty : string) (fl : Filters) (query : jsstring)
             (pg : nat) (s s1 : State) (rq : Request),
         failed r = true ->
         performSearch ty fl query pg true s = (s1, Some rq) ->
         books (performSearch_resume rq r s1) = []
         /\ status (performSearch_resume rq r s1) = Error)
  /\ (forall (rq : Request) (nf : option Z) (s : State),
         books (performSearch_resume rq (Json None nf) s) = books s
         /\ busy (performSearch_resume rq (Json None nf) s) = false
         /\ error (performSearch_resume rq (Json None nf) s)
            = (if rq_isNewSearch rq then msgNone else error s))
  /\ (forall (nf : option Z) (s s1 : State) (rq : Request),
         loadMoreBooks s = (s1, Some rq) ->
         books (performSearch_resume rq (Json None nf) s1) = books s
         /\ error (performSearch_resume rq (Json None nf) s1) = EmptyString
         /\ status (performSearch_resume rq (Json None nf) s1) = Idle).
Proof.
  assert (Hany : forall r rq s,
             failed r = true ->
             books (performSearch_resume rq r s) = books s
             /\ status (performSearch_resume rq r s) = Error
             /\ error (performSearch_resume rq r s) = msgFailed).
  { intros r rq s Hf. rewrite (resume_failed rq r s Hf). auto. }
  split; [exact Hany|]. split; [|split; [|split]].
  - intros r s s1 rq Hf H. destruct (Hany r rq s1 Hf) as (Hb & Hs & _).
    split; [|exact Hs]. rewrite Hb.
    unfold loadMoreBooks in H.
    destruct (hasMore s && negb (loadingMore s) && negb (loading s));
      [|discriminate].
    apply performSearch_sent_inv in H. destruct H as (_ & -> & _). reflexivity.
  - intros r ty fl query pg s s1 rq Hf H.
    destruct (Hany r rq s1 Hf) as (Hb & Hs & _).
    split; [|exact Hs]. rewrite Hb.
    apply performSearch_sent_inv in H. destruct H as (_ & -> & _). reflexivity.
  - intros rq nf s. unfold performSearch_resume, applyData, busy.
    destruct (rq_isNewSearch rq); auto.
  - intros nf s s1 rq H. unfold loadMoreBooks in H.
    destruct (hasMore s && negb (loadingMore s) && negb (loading s));
      [|discriminate].
    apply performSearch_sent_inv in H. destruct H as (_ & -> & _ & Hn & _).
    unfold performSearch_resume, applyData, status. rewrite Hn. simpl. auto.
Qed.

Lemma failed_fetch_keeps_or_clears_witness :
  let s := ui afterPage0 in
  let rq := mkRequest "title" dune EmptyString EmptyString 20 20 1 false in
  loadMoreBooks s = (setLoadingMore true s, Some rq)
  /\ books (performSearch_resume rq Rejected (setLoadingMore true s))
     = sampleBooks 0 20
  /\ status (performSearch_resume rq Rejected (setLoadingMore true s)) = Error.
Proof.
  intros s rq.
  assert (H : loadMoreBooks s = (setLoadingMore true s, Some rq))
    by (vm_compute; reflexivity).
  split; [exact H|].
  destruct failed_fetch_keeps_or_clears as (_ & Hc & _).
  destruct (Hc Rejected s (setLoadingMore true s) rq eq_refl H) as (Hb & Hs).
  split; [rewrite Hb; vm_compute; reflexivity | exact Hs].
Defined.

(** ** The scenario of the specification *)

(** C4.  Query "dune" searched by title.  Page 0 brings 20 records with
    [numFound = 45]: [hasMore] is true and [currentPage] is 0.  The first
    continuation brings 20 records: 40 records accumulated, [hasMore]
    still true.  The second brings 5 records: 45 records accumulated and
    [hasMore] false.  Each step sends exactly one request, for the next
    page. *)
Theorem dune_scenario :
  (hasMore (ui afterPage0) = true /\ currentPage (ui afterPage0) = 0
   /\ books (ui afterPage0) = sampleBooks 0 20)
  /\ (inflight (step NearEnd afterPage0)
        = [mkRequest "title" dune EmptyString EmptyString 20 20 1 false]
      /\ List.length (books (ui afterPage1)) = 40
      /\ hasMore (ui afterPage1) = true)
  /\ (inflight (step NearEnd afterPage1)
        = [mkRequest "title" dune EmptyString EmptyString 20 40 2 false]
      /\ List.length (books (ui afterPage2)) = 45
      /\ hasMore (ui afterPage2) = false
      /\ books (ui afterPage2) = sampleBooks 0 45).
Proof. vm_compute. repeat split. Qed.

(** ** Accumulation over a session *)




(** A continuation is carried out whenever the guard of [loadMoreBooks]
    holds and the query text is not blank and can be encoded. *)
Lemma continuation_runs (r : FetchResult) (s : State) :
  hasMore s = true -> loading s = false -> loadingMore s = false ->
  truthy (trim (searchQuery s)) = true ->
  isWellFormed (searchQuery s) = true ->
  exists s', continuation r s = Some s'.
Proof.
  intros Hh Hl Hm Hq Hw. unfold continuation, loadMoreBooks.
  rewrite Hh, Hl, Hm. simpl.
  rewrite (performSearch_sends _ _ _ _ _ _ Hq Hw). eauto.
Qed.




(** ** Responses that arrive after the query has changed *)

(** C1, as stated, fails.  With "emma" current and its two records shown,
    the request still in flight is the one sent for "dune".  When its
    response arrives it replaces the records and the total, and when it
    fails instead it puts up the connectivity message. *)
Lemma stale_response_is_applied :
  inflight twoSearches = [mkRequest "title" dune EmptyString EmptyString 20 0 0 true]
  /\ searchQuery (ui twoSearches) = emma
  /\ dune <> emma
  /\ books (ui twoSearches) = sampleBooks 100 2
  /\ totalBooks (ui twoSearches) = 2%Z
  /\ error (ui twoSearches) = EmptyString
  /\ books (ui (step (Arrive 0 (page (sampleBooks 0 3) (Some 3%Z))) twoSearches))
     = sampleBooks 0 3
  /\ totalBooks (ui (step (Arrive 0 (page (sampleBooks 0 3) (Some 3%Z))) twoSearches))
     = 3%Z
  /\ error (ui (step (Arrive 0 Rejected) twoSearches)) = msgFailed.
Proof. vm_compute. repeat split. discriminate. Qed.

Lemma resume_ignores_query (rq : Request) (r : FetchResult) (text : jsstring)
    (s : State) :
  performSearch_resume rq r (setSearchQuery text s)
  = setSearchQuery text (performSearch_resume rq r s).
Proof.
  unfold performSearch_resume.
  destruct r as [| | |docs nf]; try reflexivity.
  unfold applyData. destruct docs as [ds|]; destruct (rq_isNewSearch rq);
    try reflexivity;
    destruct ((List.length ds =? 0)%nat); reflexivity.
Qed.

(** C1, amended.  The code after the [await] never looks at the current
    query: a response is applied in the same way whatever the query text
    has become meanwhile.  The response to a new-session request replaces
    [books] by its records when it carries a [docs] array, in any state;
    one that fails puts up the connectivity message and, like one without
    [docs], leaves [books] as they are.  So of two new-session searches in
    flight together, [books] ends as the records of the last response to
    arrive that carries [docs], in either order of arrival. *)
Theorem response_applied_whatever_the_query :
  (forall (rq : Request) (r : FetchResult) (text : jsstring) (s : State),
      performSearch_resume rq r (setSearchQuery text s)
      = setSearchQuery text (performSearch_resume rq r s))
  /\ (forall (rq : Request) (r : FetchResult) (s : State),
         rq_isNewSearch rq = true ->
         books (performSearch_resume rq r s) = recordsAfter r (books s))
  /\ (forall (rq : Request) (r : FetchResult) (s : State),
         failed r = true ->
         error (performSearch_resume rq r s) = msgFailed
         /\ books (performSearch_resume rq r s) = books s)
  /\ (forall (w : World) (rq1 rq2 : Request) (r1 r2 : FetchResult),
         inflight w = [rq1; rq2] ->
         rq_isNewSearch rq1 = true -> rq_isNewSearch rq2 = true ->
         books (ui (run [Arrive 0 r1; Arrive 0 r2] w))
         = recordsAfter r2 (recordsAfter r1 (books (ui w)))
         /\ books (ui (run [Arrive 1 r2; Arrive 0 r1] w))
            = recordsAfter r1 (recordsAfter r2 (books (ui w)))).
Proof.
  assert (Hnew : forall rq r s,
             rq_isNewSearch rq = true ->
             books (performSearch_resume rq r s) = recordsAfter r (books s)).
  { intros rq r s H. destruct r as [| | |[ds|] nf]; try reflexivity.
    - destruct (resume_page_fields rq ds nf s) as (_ & _ & _ & Hb & _).
      unfold page in Hb. rewrite Hb, H. reflexivity.
    - unfold performSearch_resume, applyData. rewrite H. reflexivity. }
  split; [exact resume_ignores_query|]. split; [exact Hnew|]. split.
  - intros rq r s Hf. rewrite (resume_failed rq r s Hf). auto.
  - intros w rq1 rq2 r1 r2 Hin H1 H2. unfold run. cbn [fold_left]. split.
    + destruct (step_arrive 0 r1 rq1 w) as (Hu & Hi); [rewrite Hin; reflexivity|].
      destruct (step_arrive 0 r2 rq2 (step (Arrive 0 r1) w)) as (Hu2 & _).
      { rewrite Hi, Hin. reflexivity. }
      rewrite Hu2, Hu, !Hnew by assumption. reflexivity.
    + destruct (step_arrive 1 r2 rq2 w) as (Hu & Hi); [rewrite Hin; reflexivity|].
      destruct (step_arrive 0 r1 rq1 (step (Arrive 1 r2) w)) as (Hu2 & _).
      { rewrite Hi, Hin. reflexivity. }
      rewrite Hu2, Hu, !Hnew by assumption. reflexivity.
Qed.

Lemma response_applied_whatever_the_query_witness :
  let w := run [Change dune; Submit; Change emma; Submit] initialWorld in
  books (ui (run [Arrive 1 (page (sampleBooks 100 2) (Some 2%Z));
                  Arrive 0 NotOk] w))
  = sampleBooks 100 2
  /\ books (performSearch_resume
              (mkRequest "title" dune EmptyString EmptyString 20 0 0 true)
              (page (sampleBooks 0 3) (Some 3%Z)) (ui twoSearches))
     = sampleBooks 0 3
  /\ error (performSearch_resume
              (mkRequest "title" dune EmptyString EmptyString 20 0 0 true)
              NotOk (ui twoSearches)) = msgFailed.
Proof.
  intros w.
  destruct response_applied_whatever_the_query as (_ & Hnew & Hfail & Htwo).
  split; [|split].
  - destruct (Htwo w (mkRequest "title" dune EmptyString EmptyString 20 0 0 true)
                (mkRequest "title" emma EmptyString EmptyString 20 0 0 true)
                NotOk (page (sampleBooks 100 2) (Some 2%Z))) as (_ & H);
      [reflexivity..|].
    rewrite H. reflexivity.
  - rewrite Hnew by reflexivity. reflexivity.
  - apply Hfail. reflexivity.
Defined.

(** ** Clearing the search box *)

(** C7, as stated, fails.  While the search for "dune" is loading, emptying
    the text box empties the result list but the session is still
    [Loading], not [Idle]; after a failed search it is still [Error]. *)
Lemma clearing_text_keeps_status :
  let w := run [Change dune; Submit] initialWorld in
  searchQuery (ui w) = dune
  /\ status (ui w) = Loading
  /\ status (ui (step (Change []) w)) = Loading
  /\ status (ui (step (Change []) w)) <> Idle
  /\ status (ui (run [Arrive 0 Rejected; Change []] w)) = Error.
Proof. vm_compute. repeat split. discriminate. Qed.

(** C7, amended.  When the text of the search box changes to the empty
    text, [books] becomes empty, [hasMore] false and [totalBooks] 0 at
    once; no request is sent and the pending debounce timeout is
    cancelled.  The loading flags and the error message, and so the
    status, stay as they were; the calls in flight stay in flight. *)
Theorem clearing_text_resets_results (w : World) :
  searchQuery (ui w) <> [] ->
  let w' := onChange [] w in
  searchQuery (ui w') = []
  /\ books (ui w') = [] /\ hasMore (ui w') = false /\ totalBooks (ui w') = 0%Z
  /\ inflight w' = inflight w
  /\ debounceTimer w' = None
  /\ loading (ui w') = loading (ui w)
  /\ loadingMore (ui w') = loadingMore (ui w)
  /\ error (ui w') = error (ui w)
  /\ status (ui w') = status (ui w).
Proof.
  intros Hne. unfold onChange.
  destruct (jsstring_eq_dec [] (searchQuery (ui w))) as [E|E].
  - congruence.
  - simpl. unfold searchQueryEffect. simpl. auto 12.
Qed.

Lemma clearing_text_resets_results_witness :
  books (ui afterPage0) = sampleBooks 0 20
  /\ books (ui (onChange [] afterPage0)) = []
  /\ hasMore (ui (onChange [] afterPage0)) = false
  /\ status (ui (onChange [] afterPage0)) = Idle.
Proof.
  assert (Hq : searchQuery (ui afterPage0) <> []) by (vm_compute; discriminate).
  destruct (clearing_text_resets_results afterPage0 Hq)
    as (_ & Hb & Hh & _ & _ & _ & _ & _ & _ & Hs).
  split; [vm_compute; reflexivity|].
  split; [exact Hb|]. split; [exact Hh|].
  rewrite Hs. vm_compute. reflexivity.
Defined.

(** ** The guard of [loadMoreBooks] *)


Lemma onChange_frame (text : jsstring) (w : World) :
  inflight (onChange text w) = inflight w
  /\ loadingMore (ui (onChange text w)) = loadingMore (ui w).
Proof.
  unfold onChange, searchQueryEffect.
  destruct (jsstring_eq_dec text (searchQuery (ui w))); [auto|]. simpl.
  destruct (truthy text); simpl; auto.
Qed.



Lemma sameDeps_refl (a : State) : sameDeps a a = true.
Proof. unfold sameDeps. rewrite !Bool.eqb_reflx. reflexivity. Qed.

(** After every render the observer callback is up to date on the three
    values of its guard. *)
Lemma commit_observerCurrent (w : World) : observerCurrent (commit w).
Proof.
  unfold observerCurrent, commit.
  destruct (sameDeps (ui w) (observerRender w)) eqn:E; cbn [ui observerRender].
  - exact E.
  - apply sameDeps_refl.
Qed.






(** * Further properties of the controller *)

(** ** What the two halves of [performSearch] leave alone *)

Lemma performSearch_frame (ty : string) (fl : Filters) (query : jsstring)
    (pg : nat) (isNewSearch : bool) (s : State) :
  let s' := fst (performSearch ty fl query pg isNewSearch s) in
  searchQuery s' = searchQuery s /\ favorites s' = favorites s
  /\ hasMore s' = hasMore s /\ totalBooks s' = totalBooks s
  /\ searchType s' = searchType s /\ filters s' = filters s.
Proof.
  unfold performSearch.
  destruct (truthy (trim query)), isNewSearch, (buildUrl ty fl query pg);
    simpl; auto 10.
Qed.

(** Whether a request is sent, and which, does not depend on the state. *)
Lemma performSearch_request (ty : string) (fl : Filters) (query : jsstring)
    (pg : nat) (isNewSearch : bool) (s s' : State) :
  snd (performSearch ty fl query pg isNewSearch s)
  = snd (performSearch ty fl query pg isNewSearch s').
Proof.
  unfold performSearch.
  destruct (truthy (trim query)), (buildUrl ty fl query pg); reflexivity.
Qed.

Lemma resume_frame (rq : Request) (r : FetchResult) (s : State) :
  let s' := performSearch_resume rq r s in
  searchQuery s' = searchQuery s /\ favorites s' = favorites s
  /\ searchType s' = searchType s /\ filters s' = filters s
  /\ loading s' = false /\ loadingMore s' = false.
Proof.
  unfold performSearch_resume, applyData.
  destruct r as [| | |[ds|] nf]; simpl; auto 10;
    destruct (rq_isNewSearch rq); simpl; auto 10;
    destruct ((List.length ds =? 0)%nat); simpl; auto 10.
Qed.

Lemma launch_fields (w : World) (call : State -> State * option Request) :
  ui (launch w call) = fst (call (ui w))
  /\ debounceTimer (launch w call) = debounceTimer w
  /\ inflight (launch w call)
     = inflight w ++ match snd (call (ui w)) with Some rq => [rq] | None => [] end.
Proof.
  unfold launch. destruct (call (ui w)) as [s' [rq|]]; simpl; auto.
  rewrite app_nil_r. auto.
Qed.

(** An invariant of every step holds after every run. *)
Lemma run_invariant (P : World -> Prop) :
  (forall e w, P w -> P (step e w)) ->
  forall es w, P w -> P (run es w).
Proof.
  intros Hstep es. induction es as [|e es IH]; simpl; intros w Hw; [exact Hw|].
  apply IH, Hstep, Hw.
Qed.

Lemma run_app (es1 es2 : list Event) (w : World) :
  run (es1 ++ es2) w = run es2 (run es1 w).
Proof. unfold run. apply fold_left_app. Qed.

(** ** The shape of every handler *)

Lemma world_eta (w : World) :
  mkWorld (ui w) (debounceTimer w) (inflight w) (observerRender w) (observing w) = w.
Proof. destruct w; reflexivity. Qed.

Lemma handle_Handled (e : Event) (w : World) : Handled w (handle e w).
Proof.
  destruct e; cbn [handle].
  - apply H_change.
  - unfold debounceElapsed. destruct (debounceTimer w) as [q|]; [|apply H_same].
    destruct (truthy (trim q)); [|apply H_taken].
    apply (H_search w None). right. reflexivity.
  - rewrite <- (world_eta w) at 2.
    apply (H_search w (debounceTimer w) (searchType (ui w)) (filters (ui w))
                    (searchQuery (ui w)) 0 true).
    left. reflexivity.
  - destruct (observing w); [|apply H_same].
    unfold observerCallback.
    destruct (true && hasMore (observerRender w)
              && negb (loadingMore (observerRender w))
              && negb (loading (observerRender w))) eqn:Hg; [|apply H_same].
    assert (E : launch w (loadMoreBooks_of (observerRender w))
                = launch (mkWorld (ui w) (debounceTimer w) (inflight w)
                                  (observerRender w) (observing w))
                         (performSearch (searchType (observerRender w))
                            (filters (observerRender w))
                            (searchQuery (observerRender w))
                            (currentPage (observerRender w) + 1) false)).
    { rewrite world_eta. unfold launch, loadMoreBooks_of.
      cbn [andb] in Hg. rewrite Hg. reflexivity. }
    rewrite E. apply H_search. left. reflexivity.
  - unfold arrive. destruct (nth_error (inflight w) i) as [rq|] eqn:E;
      [|apply H_same].
    apply (H_arrive w i r rq E).
  - apply H_toggle.
  - apply H_type.
  - apply H_filters.
Qed.

(** A property of the state cells, the timer and the calls in flight that
    every handler keeps is kept by every step. *)
Lemma step_invariant (P : State -> option jsstring -> list Request -> Prop) :
  (forall w w', Handled w w' ->
                P (ui w) (debounceTimer w) (inflight w) ->
                P (ui w') (debounceTimer w') (inflight w')) ->
  forall e w, P (ui w) (debounceTimer w) (inflight w) ->
              P (ui (step e w)) (debounceTimer (step e w)) (inflight (step e w)).
Proof.
  intros H e w Hw. rewrite step_ui, step_timer, step_inflight.
  apply (H w _ (handle_Handled e w) Hw).
Qed.

(** ** The debounced search *)

Lemma timerCurrent_step (e : Event) (w : World) :
  timerCurrent w -> timerCurrent (step e w).
Proof.
  unfold timerCurrent.
  apply (step_invariant (fun s t _ => t = None \/ t = Some (searchQuery s))).
  clear e w. intros w w' Hh Hw. destruct Hh; cbn [ui debounceTimer].
  - exact Hw.
  - unfold onChange.
    destruct (jsstring_eq_dec text (searchQuery (ui w))); [exact Hw|].
    unfold searchQueryEffect; simpl. destruct (truthy text); simpl; auto.
  - left. reflexivity.
  - match goal with
    | |- context [launch ?w0 ?call] =>
        destruct (launch_fields w0 call) as (Hu & Ht & _)
    end.
    rewrite Hu, Ht. cbn [ui debounceTimer].
    destruct (performSearch_frame ty fl query pg isNewSearch (ui w)) as (Hq & _).
    rewrite Hq. destruct H as [-> | ->]; [exact Hw | left; reflexivity].
  - destruct (resume_frame rq r (ui w)) as (Hq & _). rewrite Hq. exact Hw.
  - unfold toggleFavorite. destruct (existsb _ (favorites (ui w))); exact Hw.
  - exact Hw.
  - exact Hw.
Qed.

Lemma commit_idempotent (w : World) : commit (commit w) = commit w.
Proof.
  pose proof (commit_observerCurrent w) as Hc. unfold observerCurrent in Hc.
  unfold commit at 1. rewrite Hc.
  unfold commit. destruct (sameDeps (ui w) (observerRender w));
    cbn [ui debounceTimer inflight observerRender observing];
    [rewrite <- andb_assoc, andb_diag | rewrite andb_diag]; reflexivity.
Qed.

(** Every reachable world is a committed render. *)
Lemma reachable_committed (es : list Event) :
  commit (run es initialWorld) = run es initialWorld.
Proof.
  apply (run_invariant (fun w => commit w = w)).
  - intros e w _. apply commit_idempotent.
  - reflexivity.
Qed.

(** X1.  In every world reachable from the initial one, when the debounce
    timeout elapses at most one request is sent, and only for the text
    currently in the search box: if that text is not blank and can be
    encoded, exactly one new-session request for page 0 of it is added,
    always by title and without filters, whatever search type and filters
    are selected; a text that cannot be encoded sends nothing and gets the
    connectivity message; a blank text is dropped silently (no message).
    The timeout fires once: a second elapse changes nothing. *)
Theorem debounced_search_is_for_current_text (es : list Event) :
  let w := run es initialWorld in
  (debounceTimer w = None -> step DebounceElapsed w = w)
  /\ (forall q, debounceTimer w = Some q ->
        q = searchQuery (ui w)
        /\ (truthy (trim q) = true -> isWellFormed q = true ->
            inflight (step DebounceElapsed w) = inflight w ++ [autoRequest q])
        /\ (truthy (trim q) = true -> isWellFormed q = false ->
            inflight (step DebounceElapsed w) = inflight w
            /\ error (ui (step DebounceElapsed w)) = msgFailed)
        /\ (truthy (trim q) = false ->
            inflight (step DebounceElapsed w) = inflight w
            /\ ui (step DebounceElapsed w) = ui w))
  /\ debounceTimer (step DebounceElapsed w) = None
  /\ step DebounceElapsed (step DebounceElapsed w) = step DebounceElapsed w.
Proof.
  intros w.
  assert (Hinv : timerCurrent w).
  { apply run_invariant; [exact timerCurrent_step | left; reflexivity]. }
  assert (Hnone : debounceTimer (step DebounceElapsed w) = None).
  { rewrite step_timer. cbn [handle]. unfold debounceElapsed.
    destruct (debounceTimer w) as [q|] eqn:Et; [|exact Et].
    destruct (truthy (trim q)); [|reflexivity].
    match goal with
    | |- context [launch ?w0 ?call] =>
        destruct (launch_fields w0 call) as (_ & Ht & _)
    end.
    exact Ht. }
  assert (Hidle : forall w0, debounceTimer w0 = None -> commit w0 = w0 ->
                             step DebounceElapsed w0 = w0).
  { intros w0 Et Hc. unfold step. cbn [handle]. unfold debounceElapsed.
    rewrite Et. exact Hc. }
  split; [|split; [|split]].
  - intros Et. apply Hidle; [exact Et | apply reachable_committed].
  - intros q Et. split.
    + destruct Hinv as [Hn|Hs]; congruence.
    + rewrite step_inflight, step_ui. cbn [handle]. unfold debounceElapsed.
      rewrite Et. split; [|split]; intros Hq.
      * intros Hw. rewrite Hq. unfold launch. cbn [ui].
        rewrite (performSearch_sends _ _ _ _ _ _ Hq Hw). reflexivity.
      * intros Hw. rewrite Hq. unfold launch. cbn [ui].
        rewrite (performSearch_malformed _ _ _ _ _ _ Hq Hw). auto.
      * rewrite Hq. auto.
  - exact Hnone.
  - apply Hidle; [exact Hnone|]. apply commit_idempotent.
Qed.

Lemma debounced_search_is_for_current_text_witness :
  let w := run [SelectType "author"; Change (str "dun"); Change dune]
               initialWorld in
  inflight (step DebounceElapsed w) = [autoRequest dune]
  /\ searchType (ui w) = "author".
Proof.
  intros w.
  destruct (debounced_search_is_for_current_text
              [SelectType "author"; Change (str "dun"); Change dune])
    as (_ & H & _).
  destruct (H dune eq_refl) as (_ & Hsend & _).
  split; [exact (Hsend eq_refl eq_refl) | reflexivity].
Defined.

Lemma onChange_inflight_run (ts : list jsstring) :
  forall w, inflight (run (map Change ts) w) = inflight w.
Proof.
  induction ts as [|t ts IH]; simpl; intros w; [reflexivity|].
  rewrite IH, step_inflight. apply onChange_frame.
Qed.

(** X2.  Typing never sends a request by itself: after any burst of
    changes of the text the calls in flight are those there were before.
    When the timeout then elapses, at most one request is added. *)
Theorem typing_sends_at_most_one_request (ts : list jsstring) (w : World) :
  inflight (run (map Change ts) w) = inflight w
  /\ List.length (inflight (run (map Change ts ++ [DebounceElapsed]) w))
     <= S (List.length (inflight w)).
Proof.
  split; [apply onChange_inflight_run|].
  rewrite run_app. simpl.
  set (w1 := run (map Change ts) w).
  assert (Hin : inflight w1 = inflight w) by apply onChange_inflight_run.
  rewrite step_inflight. cbn [handle].
  unfold debounceElapsed. destruct (debounceTimer w1) as [q|].
  - destruct (truthy (trim q)).
    + match goal with
      | |- context [launch ?w0 ?call] =>
          destruct (launch_fields w0 call) as (_ & _ & Hi)
      end.
      rewrite Hi. simpl inflight. rewrite length_app, Hin.
      destruct (snd _); simpl; lia.
    + simpl. rewrite Hin. lia.
  - rewrite Hin. lia.
Qed.

(** ** Spinners and calls in flight *)

Lemma onChange_busy (text : jsstring) (w : World) :
  busy (ui (onChange text w)) = busy (ui w).
Proof.
  unfold onChange, searchQueryEffect.
  destruct (jsstring_eq_dec text (searchQuery (ui w))); [reflexivity|]. simpl.
  destruct (truthy text); reflexivity.
Qed.

Lemma busyHasRequest_step (e : Event) (w : World) :
  busyHasRequest w -> busyHasRequest (step e w).
Proof.
  unfold busyHasRequest.
  apply (step_invariant (fun s _ l => busy s = true -> l <> [])).
  clear e w. intros w w' Hh Hw. destruct Hh; cbn [ui inflight].
  - exact Hw.
  - rewrite onChange_busy. destruct (onChange_frame text w) as [Hi _].
    rewrite Hi. exact Hw.
  - exact Hw.
  - unfold launch, performSearch. cbn [ui].
    destruct (truthy (trim query)); cbn [negb].
    + destruct (buildUrl ty fl query pg); cbn [ui inflight].
      * intros _ Hnil. symmetry in Hnil. exact (app_cons_not_nil _ _ _ Hnil).
      * unfold busy. simpl. discriminate.
    + exact Hw.
  - unfold busy. destruct (resume_frame rq r (ui w)) as (_ & _ & _ & _ & Hl & Hm).
    rewrite Hl, Hm. discriminate.
  - unfold busy, toggleFavorite.
    destruct (existsb _ (favorites (ui w))); exact Hw.
  - exact Hw.
  - exact Hw.
Qed.

(** X3.  In every world reachable from the initial one, a spinner
    ([loading] or [loadingMore]) is shown only while some call is in
    flight, and the arrival of the response to any call in flight, good or
    bad, clears both flags: the interface cannot stay stuck loading. *)
Theorem spinner_has_a_request (es : list Event) :
  let w := run es initialWorld in
  (busy (ui w) = true -> inflight w <> [])
  /\ (forall i r, i < List.length (inflight w) ->
        busy (ui (step (Arrive i r) w)) = false
        /\ List.length (inflight (step (Arrive i r) w))
           < List.length (inflight w)).
Proof.
  intros w. split.
  - apply (run_invariant busyHasRequest busyHasRequest_step).
    unfold busyHasRequest. discriminate.
  - intros i r Hi.
    destruct (nth_error (inflight w) i) as [rq|] eqn:E.
    + destruct (step_arrive i r rq w E) as (Hu & Hin). rewrite Hu, Hin. split.
      * unfold busy.
        destruct (resume_frame rq r (ui w)) as (_ & _ & _ & _ & Hl & Hm).
        rewrite Hl, Hm. reflexivity.
      * clear E Hu Hin. revert i Hi. induction (inflight w) as [|x l IH]; simpl;
          intros i Hi; [lia|].
        destruct i as [|i]; simpl; [lia|].
        apply -> Nat.succ_lt_mono. apply IH. lia.
    + apply nth_error_None in E. lia.
Qed.

Lemma spinner_has_a_request_witness :
  let w := run [Change dune; Submit; Submit] initialWorld in
  busy (ui w) = true
  /\ inflight w <> []
  /\ busy (ui (step (Arrive 1 NotOk) w)) = false.
Proof.
  intros w.
  destruct (spinner_has_a_request [Change dune; Submit; Submit]) as (H1 & H2).
  split; [reflexivity|]. split.
  - apply H1. reflexivity.
  - apply (H2 1 NotOk). vm_compute. lia.
Defined.

(** ** The bound behind [hasMore] *)

Lemma moreIsBelowTotal_resume (rq : Request) (r : FetchResult) (s : State) :
  moreIsBelowTotal s -> moreIsBelowTotal (performSearch_resume rq r s).
Proof.
  unfold moreIsBelowTotal. intros Hs.
  destruct r as [| | |[ds|] nf]; try exact Hs.
  - destruct (resume_page_fields rq ds nf s) as (Ht & Hp & Hh & _).
    unfold page in *. rewrite Ht, Hp, Hh. intros H.
    apply andb_true_iff in H. destruct H as [_ H]. apply Z.ltb_lt in H. exact H.
  - unfold performSearch_resume, applyData.
    destruct (rq_isNewSearch rq); exact Hs.
Qed.

Lemma moreIsBelowTotal_step (e : Event) (w : World) :
  moreIsBelowTotal (ui w) -> moreIsBelowTotal (ui (step e w)).
Proof.
  apply (step_invariant (fun s _ _ => moreIsBelowTotal s)).
  clear e w. intros w w' Hh Hw. destruct Hh; cbn [ui].
  - exact Hw.
  - unfold onChange.
    destruct (jsstring_eq_dec text (searchQuery (ui w))); [exact Hw|].
    unfold searchQueryEffect; simpl. destruct (truthy text); simpl.
    + exact Hw.
    + unfold moreIsBelowTotal; simpl. discriminate.
  - exact Hw.
  - unfold moreIsBelowTotal, launch, performSearch in *. cbn [ui].
    destruct (truthy (trim query)), isNewSearch, (buildUrl ty fl query pg);
      simpl; try exact Hw;
      intros Hm; specialize (Hw Hm); unfold limit in *; lia.
  - apply moreIsBelowTotal_resume, Hw.
  - unfold toggleFavorite.
    destruct (existsb _ (favorites (ui w))); exact Hw.
  - exact Hw.
  - exact Hw.
Qed.

(** X4.  In every world reachable from the initial one, whatever the
    order of searches, responses and clearings, [hasMore] is true only if
    [(currentPage + 1) * 20 < totalBooks]; in particular more results are
    promised only when the total recorded exceeds 20. *)
Theorem hasMore_is_below_total (es : list Event) :
  let s := ui (run es initialWorld) in
  hasMore s = true ->
  (Z.of_nat ((currentPage s + 1) * limit) < totalBooks s)%Z
  /\ (20 < totalBooks s)%Z.
Proof.
  intros s H.
  assert (Hinv : moreIsBelowTotal s).
  { apply (run_invariant (fun w => moreIsBelowTotal (ui w)) moreIsBelowTotal_step).
    unfold moreIsBelowTotal. simpl. discriminate. }
  specialize (Hinv H). split; [exact Hinv|]. unfold limit in Hinv. lia.
Qed.

Lemma hasMore_is_below_total_witness :
  (20 < totalBooks
          (ui (run [Change dune; DebounceElapsed;
                    Arrive 0 (page (sampleBooks 0 20) (Some 45%Z));
                    Submit; Arrive 0 Rejected] initialWorld)))%Z.
Proof.
  apply (hasMore_is_below_total
           [Change dune; DebounceElapsed;
            Arrive 0 (page (sampleBooks 0 20) (Some 45%Z));
            Submit; Arrive 0 Rejected]).
  vm_compute. reflexivity.
Defined.

(** ** The favourites list *)

Lemma not_favorite_key (r : Book) (l : list Book) :
  existsb (fun fav => sameKey fav r) l = false -> ~ In (key r) (map key l).
Proof.
  intros H Hin. apply in_map_iff in Hin. destruct Hin as (x & Hk & Hx).
  assert (E : existsb (fun fav => sameKey fav r) l = true).
  { apply existsb_exists. exists x. split; [exact Hx|].
    unfold sameKey. rewrite Hk. apply String.eqb_refl. }
  congruence.
Qed.

Lemma NoDup_map_filter {A B} (g : A -> B) (f : A -> bool) (l : list A) :
  NoDup (map g l) -> NoDup (map g (filter f l)).
Proof.
  induction l as [|x l IH]; simpl; intros H; [constructor|].
  inversion H as [|? ? Hx Hl]; subst.
  destruct (f x); simpl; [|exact (IH Hl)].
  constructor; [|exact (IH Hl)].
  intros Hin. apply Hx. apply in_map_iff in Hin.
  destruct Hin as (y & Hy & Hyin). apply filter_In in Hyin.
  apply in_map_iff. exists y. tauto.
Qed.

Lemma toggleFavorite_NoDup (r : Book) (s : State) :
  NoDup (map key (favorites s)) ->
  NoDup (map key (favorites (toggleFavorite r s))).
Proof.
  intros H. unfold toggleFavorite.
  destruct (existsb (fun fav => sameKey fav r) (favorites s)) eqn:E; simpl.
  - apply NoDup_map_filter, H.
  - rewrite map_app. simpl. apply NoDup_app.
    + exact H.
    + constructor; [intros []|constructor].
    + intros a Ha [Hb|[]]. subst a. exact (not_favorite_key r _ E Ha).
Qed.

Lemma step_keeps_favorites (e : Event) (w : World) :
  isToggle e = false -> favorites (ui (step e w)) = favorites (ui w).
Proof.
  intros He. rewrite step_ui.
  destruct e; simpl in He; try discriminate; cbn [handle].
  - unfold onChange.
    destruct (jsstring_eq_dec text (searchQuery (ui w))); [reflexivity|].
    unfold searchQueryEffect; simpl. destruct (truthy text); reflexivity.
  - unfold debounceElapsed. destruct (debounceTimer w) as [q|]; [|reflexivity].
    destruct (truthy (trim q)); [|reflexivity].
    match goal with
    | |- context [launch ?w0 ?call] =>
        destruct (launch_fields w0 call) as (Hu & _)
    end.
    rewrite Hu. apply performSearch_frame.
  - destruct (launch_fields w searchBooks) as (Hu & _). rewrite Hu.
    apply performSearch_frame.
  - destruct (observing w); [|reflexivity].
    unfold observerCallback.
    destruct (true && hasMore (observerRender w)
              && negb (loadingMore (observerRender w))
              && negb (loading (observerRender w))); [|reflexivity].
    destruct (launch_fields w (loadMoreBooks_of (observerRender w))) as (Hu & _).
    rewrite Hu. unfold loadMoreBooks_of.
    destruct (hasMore (observerRender w) && negb (loadingMore (observerRender w))
              && negb (loading (observerRender w))); [|reflexivity].
    apply performSearch_frame.
  - unfold arrive. destruct (nth_error (inflight w) i) as [rq|]; [|reflexivity].
    cbn [ui]. apply resume_frame.
  - reflexivity.
  - reflexivity.
Qed.

Lemma favorites_NoDup_step (e : Event) (w : World) :
  NoDup (map key (favorites (ui w))) ->
  NoDup (map key (favorites (ui (step e w)))).
Proof.
  intros H. destruct (isToggle e) eqn:He.
  - destruct e; try discriminate. rewrite step_ui. cbn [handle ui].
    apply toggleFavorite_NoDup, H.
  - rewrite (step_keeps_favorites e w He). exact H.
Qed.

Lemma filter_keeps_all {A} (f : A -> bool) (l : list A) :
  (forall x, In x l -> f x = true) -> filter f l = l.
Proof.
  induction l as [|x l IH]; simpl; intros H; [reflexivity|].
  rewrite (H x (or_introl eq_refl)), IH; [reflexivity|].
  intros y Hy. apply H. right. exact Hy.
Qed.

Lemma remove_favorite_length (r : Book) (l : list Book) :
  NoDup (map key l) ->
  existsb (fun fav => sameKey fav r) l = true ->
  S (List.length (filter (fun fav => negb (sameKey fav r)) l)) = List.length l.
Proof.
  induction l as [|x l IH]; simpl; intros Hnd Hex; [discriminate|].
  inversion Hnd as [|? ? Hx Hl]; subst.
  destruct (sameKey x r) eqn:E; simpl.
  - rewrite filter_keeps_all; [reflexivity|].
    intros y Hy. apply negb_true_iff. unfold sameKey in *.
    apply String.eqb_eq in E. apply String.eqb_neq. intros Ey.
    apply Hx. rewrite E, <- Ey. apply in_map, Hy.
  - rewrite (IH Hl Hex). reflexivity.
Qed.

(** X5.  In every world reachable from the initial one the favourites
    hold at most one record per key.  So the heart button changes the
    number of favourites by exactly one: it removes the one entry with the
    record's key when there is one, and otherwise appends the record at
    the end. *)
Theorem favorites_have_distinct_keys (es : list Event) :
  let s := ui (run es initialWorld) in
  NoDup (map key (favorites s))
  /\ (forall r, isFavorite s r = true ->
        S (List.length (favorites (toggleFavorite r s)))
        = List.length (favorites s))
  /\ (forall r, isFavorite s r = false ->
        favorites (toggleFavorite r s) = favorites s ++ [r]).
Proof.
  intros s.
  assert (Hnd : NoDup (map key (favorites s))).
  { apply (run_invariant (fun w => NoDup (map key (favorites (ui w))))
             favorites_NoDup_step).
    constructor. }
  split; [exact Hnd|]. split.
  - intros r Hr. unfold isFavorite in Hr. unfold toggleFavorite. rewrite Hr.
    simpl. apply remove_favorite_length; assumption.
  - intros r Hr. unfold isFavorite in Hr. unfold toggleFavorite. rewrite Hr.
    reflexivity.
Qed.

Lemma favorites_have_distinct_keys_witness :
  let s := ui (run [Toggle (sampleBook 1); Toggle (sampleBook 2);
                    Toggle (mkBook (key (sampleBook 1)) "Dune, 2nd printing");
                    Toggle (sampleBook 3)] initialWorld) in
  favorites s = [sampleBook 2; sampleBook 3]
  /\ S (List.length (favorites (toggleFavorite (sampleBook 2) s))) = 2.
Proof.
  intros s.
  destruct (favorites_have_distinct_keys
              [Toggle (sampleBook 1); Toggle (sampleBook 2);
               Toggle (mkBook (key (sampleBook 1)) "Dune, 2nd printing");
               Toggle (sampleBook 3)]) as (_ & H & _).
  split; [reflexivity|].
  apply (H (sampleBook 2)). reflexivity.
Defined.

Lemma run_keeps_favorites (es : list Event) :
  forall w, forallb (fun e => negb (isToggle e)) es = true ->
            favorites (ui (run es w)) = favorites (ui w).
Proof.
  induction es as [|e es IH]; simpl; intros w H; [reflexivity|].
  apply andb_true_iff in H. destruct H as [He Hes].
  rewrite (IH _ Hes). apply step_keeps_favorites.
  apply negb_true_iff, He.
Qed.

(** X6.  Nothing but the heart button touches the favourites: typing,
    searching, continuing, responses (good or bad) and the type and
    filter selectors leave the list exactly as it was, so favourites
    survive every new search. *)
Theorem only_toggle_changes_favorites (es : list Event) (w : World) :
  forallb (fun e => negb (isToggle e)) es = true ->
  favorites (ui (run es w)) = favorites (ui w)
  /\ (forall b, isFavorite (ui (run es w)) b = isFavorite (ui w) b).
Proof.
  intros H. pose proof (run_keeps_favorites es w H) as E.
  split; [exact E|]. intros b. unfold isFavorite. rewrite E. reflexivity.
Qed.

Lemma only_toggle_changes_favorites_witness :
  let w := step (Toggle (sampleBook 7)) initialWorld in
  favorites (ui (run [Change dune; Submit;
                      Arrive 0 (page (sampleBooks 0 20) (Some 45%Z));
                      NearEnd; Arrive 0 Rejected; Change []] w))
  = [sampleBook 7].
Proof.
  intros w.
  destruct (only_toggle_changes_favorites
              [Change dune; Submit;
               Arrive 0 (page (sampleBooks 0 20) (Some 45%Z));
               NearEnd; Arrive 0 Rejected; Change []] w eq_refl) as (H & _).
  rewrite H. reflexivity.
Defined.

(** ** Page numbering within a session *)

Lemma newSession_inv (r : FetchResult) (s s' : State) :
  newSession r s = Some s' ->
  exists s1 rq,
    performSearch (searchType s) (filters s) (searchQuery s) 0 true s = (s1, Some rq)
    /\ s1 = setError EmptyString
              (setCurrentPage 0 (setBooks [] (setLoading true s)))
    /\ rq_page rq = 0 /\ rq_isNewSearch rq = true
    /\ s' = performSearch_resume rq r s1.
Proof.
  unfold newSession, searchBooks.
  destruct (performSearch _ _ _ _ _ s) as [s1 [rq|]] eqn:E; [|discriminate].
  intros H; inversion H; subst; clear H.
  pose proof (performSearch_sent_inv _ _ _ _ _ _ _ _ E) as (_ & Hs1 & Hp & Hn & _).
  exists s1, rq. auto.
Qed.

Lemma continuation_inv (r : FetchResult) (s s' : State) :
  continuation r s = Some s' ->
  hasMore s = true /\ loading s = false /\ loadingMore s = false
  /\ exists rq,
       loadMoreBooks s = (setError EmptyString (setLoadingMore true s), Some rq)
       /\ rq_page rq = currentPage s + 1 /\ rq_isNewSearch rq = false
       /\ s' = performSearch_resume rq r (setError EmptyString (setLoadingMore true s)).
Proof.
  unfold continuation, loadMoreBooks.
  destruct (hasMore s) eqn:Hh; [|discriminate].
  destruct (loadingMore s) eqn:Hm; [discriminate|].
  destruct (loading s) eqn:Hl; [discriminate|]. simpl.
  destruct (performSearch _ _ _ _ _ s) as [s1 [rq|]] eqn:E; [|discriminate].
  intros H; inversion H; subst; clear H.
  pose proof (performSearch_sent_inv _ _ _ _ _ _ _ _ E) as (_ & Hs1 & Hp & Hn & _).
  subst s1. repeat split; auto. exists rq. auto.
Qed.

Lemma newSession_page (ds : list Book) (nf : option Z) (s s' : State) :
  newSession (page ds nf) s = Some s' ->
  books s' = ds /\ currentPage s' = 0 /\ aligned s' /\ fullIfMore s' ds.
Proof.
  intros H. apply newSession_inv in H.
  destruct H as (s1 & rq & _ & _ & Hp & Hn & ->).
  destruct (resume_page_fields rq ds nf s1) as (_ & Hcp & Hh & Hb & _).
  rewrite Hn in Hb. rewrite Hp in Hcp, Hh.
  assert (Hfull : fullIfMore (performSearch_resume rq (page ds nf) s1) ds).
  { unfold fullIfMore. rewrite Hh. intros H.
    apply andb_true_iff in H. destruct H as [H _]. apply Nat.eqb_eq, H. }
  split; [exact Hb|]. split; [exact Hcp|]. split; [|exact Hfull].
  unfold aligned. intros H. rewrite Hb, Hcp, (Hfull H). lia.
Qed.

Lemma continuation_page (ds : list Book) (nf : option Z) (s s' : State) :
  continuation (page ds nf) s = Some s' ->
  aligned s ->
  hasMore s = true
  /\ List.length (books s) = (currentPage s + 1) * limit
  /\ books s' = books s ++ ds
  /\ currentPage s' = currentPage s + 1
  /\ aligned s' /\ fullIfMore s' ds.
Proof.
  intros H Ha. apply continuation_inv in H.
  destruct H as (Hmore & _ & _ & rq & _ & Hp & Hn & ->).
  destruct (resume_page_fields rq ds nf (setError EmptyString (setLoadingMore true s)))
    as (_ & Hcp & Hh & Hb & _).
  rewrite Hn in Hb. rewrite Hp in Hcp, Hh.
  change (books (setError EmptyString (setLoadingMore true s))) with (books s) in Hb.
  assert (Hfull : fullIfMore
                    (performSearch_resume rq (page ds nf)
                       (setError EmptyString (setLoadingMore true s))) ds).
  { unfold fullIfMore. rewrite Hh. intros H.
    apply andb_true_iff in H. destruct H as [H _]. apply Nat.eqb_eq, H. }
  split; [exact Hmore|]. split; [exact (Ha Hmore)|].
  split; [exact Hb|]. split; [exact Hcp|]. split; [|exact Hfull].
  unfold aligned. intros H. rewrite Hb, Hcp, length_app, (Ha Hmore), (Hfull H).
  lia.
Qed.

Lemma continuations_pages (ps : list (list Book * option Z)) :
  forall (d : list Book) (s s' : State),
    continuations ps s = Some s' ->
    aligned s -> fullIfMore s d ->
    aligned s'
    /\ currentPage s' = currentPage s + List.length ps
    /\ Forall (fun p => List.length p = limit) (removelast (d :: map fst ps)).
Proof.
  induction ps as [|[ds nf] ps IH]; intros d s s' H Ha Hf.
  - simpl in H. inversion H; subst. simpl. repeat split; auto.
  - simpl in H.
    destruct (continuation (page ds nf) s) as [s1|] eqn:E; [|discriminate].
    destruct (continuation_page _ _ _ _ E Ha) as (Hmore & _ & _ & Hcp & Ha1 & Hf1).
    destruct (IH ds s1 s' H Ha1 Hf1) as (Ha' & Hcp' & Hall).
    split; [exact Ha'|]. split.
    + rewrite Hcp', Hcp. simpl. lia.
    + change (removelast (d :: map fst ((ds, nf) :: ps)))
        with (d :: removelast (ds :: map fst ps)).
      constructor; [exact (Hf Hmore) | exact Hall].
Qed.

(** X7.  In a session carried out page after page, every page but the
    last held exactly 20 records (a continuation is only requested after a
    full page), and [currentPage] counts the continuations received. *)
Theorem session_pages_are_full
    (p0 : list Book * option Z) (ps : list (list Book * option Z))
    (s s' : State) :
  session p0 ps s = Some s' ->
  currentPage s' = List.length ps
  /\ Forall (fun p => List.length p = limit)
            (removelast (map fst (p0 :: ps))).
Proof.
  unfold session. destruct p0 as [ds0 nf0]. simpl fst. simpl snd.
  destruct (newSession (page ds0 nf0) s) as [s0|] eqn:E0; [|discriminate].
  intros H.
  destruct (newSession_page _ _ _ _ E0) as (_ & Hcp0 & Ha0 & Hf0).
  destruct (continuations_pages ps ds0 s0 s' H Ha0 Hf0) as (_ & Hcp & Hall).
  split; [rewrite Hcp, Hcp0; reflexivity | exact Hall].
Qed.

Lemma session_pages_are_full_witness :
  exists s',
    session (sampleBooks 0 20, Some 45%Z)
            [(sampleBooks 20 20, Some 45%Z); (sampleBooks 40 5, Some 45%Z)]
            (setSearchQuery dune initialState) = Some s'
    /\ currentPage s' = 2.
Proof.
  eexists. split; [vm_compute; reflexivity|].
  match goal with
  | |- currentPage ?st = _ =>
      destruct (session_pages_are_full
                  (sampleBooks 0 20, Some 45%Z)
                  [(sampleBooks 20 20, Some 45%Z); (sampleBooks 40 5, Some 45%Z)]
                  (setSearchQuery dune initialState) st) as (Hcp & _)
  end.
  - vm_compute; reflexivity.
  - rewrite Hcp. reflexivity.
Defined.

Lemma newSession_query (r : FetchResult) (s s' : State) :
  newSession r s = Some s' -> searchQuery s' = searchQuery s.
Proof.
  intros H. apply newSession_inv in H.
  destruct H as (s1 & rq & _ & Hs1 & _ & _ & ->).
  destruct (resume_frame rq r s1) as (Hq & _). rewrite Hq, Hs1. reflexivity.
Qed.

Lemma continuations_query (ps : list (list Book * option Z)) :
  forall s s', continuations ps s = Some s' -> searchQuery s' = searchQuery s.
Proof.
  induction ps as [|[ds nf] ps IH]; simpl; intros s s' H.
  - inversion H; reflexivity.
  - destruct (continuation (page ds nf) s) as [s1|] eqn:E; [|discriminate].
    rewrite (IH _ _ H). apply continuation_inv in E.
    destruct E as (_ & _ & _ & rq & _ & _ & _ & ->).
    destruct (resume_frame rq (page ds nf)
                (setError EmptyString (setLoadingMore true s))) as (Hq & _).
    rewrite Hq. reflexivity.
Qed.

(** X8.  After a session carried out page after page, the next request
    that [loadMoreBooks] sends asks for the page after the last one
    received, and its offset is exactly the number of records accumulated:
    nothing is skipped and nothing is fetched twice. *)
Theorem next_offset_is_record_count
    (p0 : list Book * option Z) (ps : list (list Book * option Z))
    (s s' s1 : State) (rq : Request) :
  session p0 ps s = Some s' ->
  loadMoreBooks s' = (s1, Some rq) ->
  rq_offset rq = List.length (books s')
  /\ rq_page rq = List.length ps + 1
  /\ rq_limit rq = limit
  /\ rq_query rq = searchQuery s.
Proof.
  unfold session. destruct p0 as [ds0 nf0]. simpl fst. simpl snd.
  destruct (newSession (page ds0 nf0) s) as [s0|] eqn:E0; [|discriminate].
  intros H Hl.
  destruct (newSession_page _ _ _ _ E0) as (_ & Hcp0 & Ha0 & Hf0).
  destruct (continuations_pages ps ds0 s0 s' H Ha0 Hf0) as (Ha & Hcp & _).
  assert (Hq : searchQuery s' = searchQuery s).
  { rewrite (continuations_query _ _ _ H). apply (newSession_query _ _ _ E0). }
  unfold loadMoreBooks in Hl.
  destruct (hasMore s') eqn:Hh; [|discriminate].
  destruct (loadingMore s'); [discriminate|].
  destruct (loading s'); [discriminate|]. simpl in Hl.
  apply performSearch_sent_request in Hl. subst rq. cbn.
  rewrite (Ha Hh), Hcp, Hcp0. repeat split; auto; lia.
Qed.

Lemma next_offset_is_record_count_witness :
  exists s' s1 rq,
    session (sampleBooks 0 20, Some 45%Z) [(sampleBooks 20 20, Some 45%Z)]
            (setSearchQuery dune initialState) = Some s'
    /\ loadMoreBooks s' = (s1, Some rq)
    /\ rq_offset rq = 40 /\ List.length (books s') = 40.
Proof.
  eexists. eexists. eexists.
  split; [vm_compute; reflexivity|].
  split; [vm_compute; reflexivity|].
  match goal with
  | |- rq_offset ?r = _ /\ List.length (books ?st) = _ =>
      destruct (next_offset_is_record_count
                  (sampleBooks 0 20, Some 45%Z) [(sampleBooks 20 20, Some 45%Z)]
                  (setSearchQuery dune initialState) st
                  (setLoadingMore true st) r) as (Ho & _)
  end.
  - vm_compute; reflexivity.
  - vm_compute; reflexivity.
  - split; [reflexivity|]. rewrite <- Ho. reflexivity.
Defined.

(** ** Outcomes of a search and of a continuation *)

Lemma resume_page_error (rq : Request) (ds : list Book) (nf : option Z) (s : State) :
  error (performSearch_resume rq (page ds nf) s)
  = if (List.length ds =? 0)%nat && rq_isNewSearch rq then msgNone else error s.
Proof.
  unfold performSearch_resume, page, applyData.
  destruct (rq_isNewSearch rq), ((List.length ds =? 0)%nat); reflexivity.
Qed.

Lemma resume_no_docs (rq : Request) (nf : option Z) (s : State) :
  performSearch_resume rq (Json None nf) s
  = setLoadingMore false
      (setLoading false (if rq_isNewSearch rq then setError msgNone s else s)).
Proof. reflexivity. Qed.

(** The request [loadMoreBooks] sends depends on the guard and on the
    text, type, filters and page only. *)
Lemma loadMoreBooks_request (s s' : State) :
  hasMore s = hasMore s' -> loadingMore s = loadingMore s' ->
  loading s = loading s' -> searchType s = searchType s' ->
  filters s = filters s' -> searchQuery s = searchQuery s' ->
  currentPage s = currentPage s' ->
  snd (loadMoreBooks s) = snd (loadMoreBooks s').
Proof.
  intros H1 H2 H3 H4 H5 H6 H7. unfold loadMoreBooks.
  rewrite H1, H2, H3, H4, H5, H6, H7.
  destruct (hasMore s' && negb (loadingMore s') && negb (loading s'));
    [apply performSearch_request | reflexivity].
Qed.

(** X9.  A response whose body has no [docs] is not treated as a failure.
    For a new-session search the list stays empty and the message is
    "No books found", but [hasMore] and [totalBooks] keep the values left
    by the previous session.  For a continuation nothing changes at all:
    no message, the same records, [hasMore] still true, so
    [loadMoreBooks] sends the very same request again. *)
Theorem response_without_docs (nf : option Z) (s s' : State) :
  (newSession (Json None nf) s = Some s' ->
   books s' = [] /\ error s' = msgNone /\ busy s' = false
   /\ hasMore s' = hasMore s /\ totalBooks s' = totalBooks s)
  /\ (continuation (Json None nf) s = Some s' ->
      books s' = books s /\ error s' = EmptyString /\ busy s' = false
      /\ hasMore s' = true /\ currentPage s' = currentPage s
      /\ snd (loadMoreBooks s') = snd (loadMoreBooks s)).
Proof.
  split; intros H.
  - apply newSession_inv in H.
    destruct H as (s1 & rq & _ & -> & _ & Hn & ->).
    rewrite resume_no_docs, Hn. simpl. auto.
  - apply continuation_inv in H.
    destruct H as (Hh & Hl & Hm & rq & Hsent & _ & Hn & ->).
    rewrite resume_no_docs, Hn. simpl. repeat split; auto.
    apply loadMoreBooks_request; simpl; congruence.
Qed.

Lemma response_without_docs_witness :
  let s := ui afterPage0 in
  exists s',
    continuation (Json None None) s = Some s'
    /\ books s' = books s
    /\ snd (loadMoreBooks s') = snd (loadMoreBooks s).
Proof.
  intros s. eexists. split; [vm_compute; reflexivity|].
  match goal with
  | |- books ?st = _ /\ _ =>
      destruct (response_without_docs None s st) as (_ & H)
  end.
  destruct H as (Hb & _ & _ & _ & _ & Hl); [vm_compute; reflexivity|].
  split; [exact Hb | exact Hl].
Defined.

(** X10.  An empty page.  A new-session search answered by an empty
    [docs] array shows "No books found", with an empty list and [hasMore]
    false.  A continuation answered by an empty array ends the pagination
    silently: the records are kept, no message is shown, [hasMore]
    becomes false and [loadMoreBooks] does nothing from then on. *)
Theorem empty_page_outcome (nf : option Z) (s s' : State) :
  (newSession (page [] nf) s = Some s' ->
   books s' = [] /\ error s' = msgNone /\ hasMore s' = false
   /\ totalBooks s' = numFoundOr0 nf /\ busy s' = false)
  /\ (continuation (page [] nf) s = Some s' ->
      books s' = books s /\ error s' = EmptyString /\ hasMore s' = false
      /\ busy s' = false /\ loadMoreBooks s' = (s', None)).
Proof.
  split; intros H.
  - apply newSession_inv in H.
    destruct H as (s1 & rq & _ & _ & _ & Hn & ->).
    destruct (resume_page_fields rq [] nf s1) as (Ht & _ & Hh & Hb & Hl & Hm).
    pose proof (resume_page_error rq [] nf s1) as He.
    rewrite Hn in Hb, He.
    assert (Hh' : hasMore (performSearch_resume rq (page [] nf) s1) = false)
      by (rewrite Hh; reflexivity).
    unfold busy. rewrite Hl, Hm. auto.
  - apply continuation_inv in H.
    destruct H as (_ & _ & _ & rq & _ & _ & Hn & ->).
    set (s1 := setError EmptyString (setLoadingMore true s)).
    destruct (resume_page_fields rq [] nf s1) as (_ & _ & Hh & Hb & Hl & Hm).
    pose proof (resume_page_error rq [] nf s1) as He.
    rewrite Hn in Hb, He. rewrite app_nil_r in Hb.
    assert (Hh' : hasMore (performSearch_resume rq (page [] nf) s1) = false)
      by (rewrite Hh; reflexivity).
    unfold busy, loadMoreBooks. rewrite Hl, Hm, Hh'. auto.
Qed.

Lemma empty_page_outcome_witness :
  let s := ui afterPage0 in
  exists s',
    continuation (page [] (Some 45%Z)) s = Some s'
    /\ books s' = sampleBooks 0 20
    /\ loadMoreBooks s' = (s', None).
Proof.
  intros s. eexists. split; [vm_compute; reflexivity|].
  match goal with
  | |- books ?st = _ /\ _ =>
      destruct (empty_page_outcome (Some 45%Z) s st) as (_ & H)
  end.
  destruct H as (Hb & _ & _ & _ & Hl); [vm_compute; reflexivity|].
  split; [rewrite Hb; vm_compute; reflexivity | exact Hl].
Defined.

(** X11.  A search or a continuation answered by a page leaves the
    session at rest.  After a new-session search answered by a non-empty
    page the status is [Idle], no message is shown, the list is the page
    and the total is [numFound] (0 when absent); after a continuation
    answered by any page the status is [Idle].  A new-session search
    sends no request exactly when the text in the box is blank or cannot
    be encoded (it holds a surrogate code unit outside a pair). *)
Theorem successful_fetch_returns_to_idle
    (ds : list Book) (nf : option Z) (s s' : State) :
  (newSession (page ds nf) s = Some s' -> ds <> [] ->
   status s' = Idle /\ error s' = EmptyString /\ books s' = ds
   /\ totalBooks s' = numFoundOr0 nf)
  /\ (continuation (page ds nf) s = Some s' ->
      status s' = Idle /\ error s' = EmptyString)
  /\ (newSession (page ds nf) s = None
      <-> forallb is_js_space (searchQuery s) = true
          \/ isWellFormed (searchQuery s) = false).
Proof.
  split; [|split].
  - intros H Hne. apply newSession_inv in H.
    destruct H as (s1 & rq & _ & Hs1 & _ & Hn & ->).
    destruct (resume_page_fields rq ds nf s1) as (Ht & _ & _ & Hb & Hl & Hm).
    pose proof (resume_page_error rq ds nf s1) as He.
    rewrite Hn in Hb, He.
    assert (Hz : (List.length ds =? 0)%nat = false).
    { destruct ds; [congruence|reflexivity]. }
    rewrite Hz in He.
    remember (performSearch_resume rq (page ds nf) s1) as st.
    subst s1. simpl in He.
    unfold status. rewrite Hl, Hm, He. auto.
  - intros H. apply continuation_inv in H.
    destruct H as (_ & _ & _ & rq & _ & _ & Hn & ->).
    set (s1 := setError EmptyString (setLoadingMore true s)).
    destruct (resume_page_fields rq ds nf s1) as (_ & _ & _ & _ & Hl & Hm).
    pose proof (resume_page_error rq ds nf s1) as He.
    rewrite Hn, andb_false_r in He.
    remember (performSearch_resume rq (page ds nf) s1) as st.
    subst s1. simpl in He.
    unfold status. rewrite Hl, Hm, He. auto.
  - unfold newSession, searchBooks, performSearch.
    rewrite <- trim_nil_iff, <- truthy_false_iff,
      <- (buildUrl_None_iff (searchType s) (filters s) (searchQuery s) 0).
    destruct (truthy (trim (searchQuery s))); cbn [negb].
    + destruct (buildUrl (searchType s) (filters s) (searchQuery s) 0).
      * split; [discriminate | intros [H|H]; discriminate].
      * split; auto.
    + split; auto.
Qed.

Lemma successful_fetch_returns_to_idle_witness :
  let s := ui (run [Change dune; Submit; Arrive 0 Rejected] initialWorld) in
  status s = Error
  /\ exists s', newSession (page (sampleBooks 0 3) None) s = Some s'
                /\ status s' = Idle.
Proof.
  intros s. split; [reflexivity|].
  eexists. split; [vm_compute; reflexivity|].
  match goal with
  | |- status ?st = _ =>
      destruct (successful_fetch_returns_to_idle (sampleBooks 0 3) None s st)
        as (H & _)
  end.
  destruct H as (Hs & _); [vm_compute; reflexivity | discriminate | exact Hs].
Defined.

(** ** Retrieving a whole result set *)

Lemma newSession_holdsFirstPages (total : nat) (ds : list Book) (nf : option Z)
    (s s' : State) :
  newSession (page ds nf) s = Some s' ->
  honestPages total 0 [(ds, nf)] = true ->
  holdsFirstPages total s'.
Proof.
  intros H Hh. cbn [honestPages] in Hh. rewrite andb_true_r in Hh.
  apply andb_true_iff in Hh. destruct Hh as [Hlen Hnf].
  apply Nat.eqb_eq in Hlen. destruct nf as [n|]; [|discriminate].
  apply Z.eqb_eq in Hnf. subst n.
  apply newSession_inv in H. destruct H as (s1 & rq & _ & _ & Hp & Hn & ->).
  destruct (resume_page_fields rq ds (Some (Z.of_nat total)) s1)
    as (_ & Hcp & Hm & Hb & _).
  rewrite Hn in Hb. rewrite Hp in Hcp, Hm. unfold holdsFirstPages.
  rewrite Hcp, Hb, Hm, Hlen. cbn [numFoundOr0].
  rewrite Nat.mul_0_r, Nat.sub_0_r. split; [lia | split; [lia | reflexivity]].
Qed.

Lemma continuation_holdsFirstPages (total : nat) (ds : list Book) (nf : option Z)
    (s s' : State) :
  continuation (page ds nf) s = Some s' ->
  holdsFirstPages total s ->
  honestPages total (S (currentPage s)) [(ds, nf)] = true ->
  holdsFirstPages total s' /\ currentPage s' = S (currentPage s).
Proof.
  intros H (Hle & Hlen & Hmore) Hh. cbn [honestPages] in Hh.
  rewrite andb_true_r in Hh.
  apply andb_true_iff in Hh. destruct Hh as [Hds Hnf].
  apply Nat.eqb_eq in Hds. destruct nf as [n|]; [|discriminate].
  apply Z.eqb_eq in Hnf. subst n.
  apply continuation_inv in H.
  destruct H as (Hguard & _ & _ & rq & _ & Hp & Hn & ->).
  set (s1 := setError EmptyString (setLoadingMore true s)).
  destruct (resume_page_fields rq ds (Some (Z.of_nat total)) s1)
    as (_ & Hcp & Hm & Hb & _).
  rewrite Hn in Hb. rewrite Hp in Hcp, Hm.
  change (books s1) with (books s) in Hb.
  rewrite Hguard in Hmore. symmetry in Hmore.
  apply andb_true_iff in Hmore. destruct Hmore as [Hfull _].
  apply Nat.eqb_eq in Hfull.
  assert (Hcp' : currentPage (performSearch_resume rq
                   (page ds (Some (Z.of_nat total))) s1) = S (currentPage s))
    by (rewrite Hcp; lia).
  split; [|exact Hcp'].
  unfold holdsFirstPages. rewrite Hcp', Hb, Hm, length_app, Hlen, Hds.
  cbn [numFoundOr0].
  replace (currentPage s + 1 + 1) with (S (currentPage s) + 1) by lia.
  split; [unfold limit in *; lia | split; [unfold limit in *; lia | reflexivity]].
Qed.

Lemma continuations_holdsFirstPages (total : nat)
    (ps : list (list Book * option Z)) :
  forall s s',
    continuations ps s = Some s' ->
    holdsFirstPages total s ->
    honestPages total (S (currentPage s)) ps = true ->
    holdsFirstPages total s'.
Proof.
  induction ps as [|[ds nf] ps IH]; intros s s' H Hs Hh.
  - simpl in H. inversion H; subst. exact Hs.
  - simpl in H.
    destruct (continuation (page ds nf) s) as [s1|] eqn:E; [|discriminate].
    cbn [honestPages] in Hh. apply andb_true_iff in Hh. destruct Hh as [Hh1 Hh2].
    destruct (continuation_holdsFirstPages total ds nf s s1 E Hs) as (Hs1 & Hcp).
    { cbn [honestPages]. rewrite Hh1. reflexivity. }
    apply (IH s1 s' H Hs1). rewrite Hcp. exact Hh2.
Qed.

(** X12.  Pagination retrieves the whole result set.  If the service
    answers honestly about a result set of [total] records (page [i]
    holds [min 20 (total - 20 i)] records and reports [numFound = total]),
    then after a session carried out page after page [hasMore] is false
    exactly when all [total] records have been accumulated, and while it
    is true fewer than [total] are held. *)
Theorem honest_service_is_fully_retrieved
    (total : nat) (p0 : list Book * option Z) (ps : list (list Book * option Z))
    (s s' : State) :
  session p0 ps s = Some s' ->
  honestPages total 0 (p0 :: ps) = true ->
  totalBooks s' = Z.of_nat total
  /\ (hasMore s' = false -> List.length (books s') = total)
  /\ (hasMore s' = true -> List.length (books s') < total).
Proof.
  unfold session. destruct p0 as [ds0 nf0]. simpl fst. simpl snd.
  destruct (newSession (page ds0 nf0) s) as [s0|] eqn:E0; [|discriminate].
  intros H Hh.
  cbn [honestPages] in Hh. apply andb_true_iff in Hh. destruct Hh as [Hh0 Hh1].
  assert (Hs0 : holdsFirstPages total s0).
  { apply (newSession_holdsFirstPages total ds0 nf0 s s0 E0).
    cbn [honestPages]. rewrite Hh0. reflexivity. }
  assert (Hcp0 : currentPage s0 = 0) by apply (newSession_page _ _ _ _ E0).
  assert (Hs' : holdsFirstPages total s').
  { apply (continuations_holdsFirstPages total ps s0 s' H Hs0).
    rewrite Hcp0. exact Hh1. }
  split.
  - (* the total shown is the one reported with the last page *)
    clear Hs' Hs0. 
    assert (Ht0 : totalBooks s0 = Z.of_nat total).
    { apply andb_true_iff in Hh0. destruct Hh0 as [_ Hnf].
      destruct nf0 as [n|]; [|discriminate]. apply Z.eqb_eq in Hnf. subst n.
      apply newSession_inv in E0. destruct E0 as (s1 & rq & _ & _ & _ & _ & ->).
      apply (resume_page_fields rq ds0 (Some (Z.of_nat total)) s1). }
    clear E0 Hh0. revert s0 H Hcp0 Hh1 Ht0. generalize 0 at 1 2.
    induction ps as [|[ds nf] ps IH]; intros k s0 H Hcp Hh Ht0.
    + simpl in H. inversion H; subst. exact Ht0.
    + simpl in H.
      destruct (continuation (page ds nf) s0) as [s1|] eqn:E; [|discriminate].
      cbn [honestPages] in Hh. apply andb_true_iff in Hh. destruct Hh as [Hh1 Hh2].
      apply andb_true_iff in Hh1. destruct Hh1 as [_ Hnf].
      destruct nf as [n|]; [|discriminate]. apply Z.eqb_eq in Hnf. subst n.
      apply (IH (S k) s1 H); [| exact Hh2 |].
      * apply continuation_inv in E.
        destruct E as (_ & _ & _ & rq & _ & Hp & _ & ->).
        destruct (resume_page_fields rq ds (Some (Z.of_nat total))
                    (setError EmptyString (setLoadingMore true s0)))
          as (_ & Hc & _). rewrite Hc, Hp, Hcp. lia.
      * apply continuation_inv in E.
        destruct E as (_ & _ & _ & rq & _ & _ & _ & ->).
        apply (resume_page_fields rq ds (Some (Z.of_nat total))
                 (setError EmptyString (setLoadingMore true s0))).
  - destruct Hs' as (Hle & Hlen & Hmore). unfold limit in *. split; intros Hm.
    + rewrite Hm in Hmore. symmetry in Hmore.
      apply andb_false_iff in Hmore. destruct Hmore as [Hf|Hf].
      * apply Nat.eqb_neq in Hf. lia.
      * apply Z.ltb_ge in Hf. lia.
    + rewrite Hm in Hmore. symmetry in Hmore.
      apply andb_true_iff in Hmore. destruct Hmore as [Hf Hlt].
      apply Nat.eqb_eq in Hf. apply Z.ltb_lt in Hlt. lia.
Qed.

Lemma honest_service_is_fully_retrieved_witness :
  exists s',
    session (sampleBooks 0 20, Some 45%Z)
            [(sampleBooks 20 20, Some 45%Z); (sampleBooks 40 5, Some 45%Z)]
            (setSearchQuery dune initialState) = Some s'
    /\ hasMore s' = false
    /\ List.length (books s') = 45.
Proof.
  eexists. split; [vm_compute; reflexivity|].
  split; [reflexivity|].
  match goal with
  | |- List.length (books ?st) = _ =>
      destruct (honest_service_is_fully_retrieved 45
                  (sampleBooks 0 20, Some 45%Z)
                  [(sampleBooks 20 20, Some 45%Z); (sampleBooks 40 5, Some 45%Z)]
                  (setSearchQuery dune initialState) st) as (_ & Hdone & _)
  end.
  - vm_compute; reflexivity.
  - vm_compute; reflexivity.
  - apply Hdone. reflexivity.
Defined.

(** ** The encoded query text *)

Lemma hexDigit_alnum (n : N) : isAlnum (N_of_ascii (hexDigit n)) = true.
Proof.
  unfold hexDigit.
  destruct (N.to_nat n) as [|m]; [reflexivity|].
  do 15 (destruct m as [|m]; [reflexivity|]). reflexivity.
Qed.

Lemma hexDigit_safe (n : N) : isUrlSafe (hexDigit n) = true.
Proof.
  unfold isUrlSafe, isUnreserved. rewrite hexDigit_alnum. simpl.
  apply orb_true_r.
Qed.

Lemma allUrlSafe_app (a b : string) :
  allUrlSafe (a ++ b) = allUrlSafe a && allUrlSafe b.
Proof.
  induction a as [|x a IH]; simpl; [reflexivity|].
  rewrite IH. apply andb_assoc.
Qed.

Lemma percentOctets_safe (bs : list N) : allUrlSafe (percentOctets bs) = true.
Proof.
  induction bs as [|b bs IH]; [reflexivity|].
  cbn [percentOctets]. rewrite allUrlSafe_app, IH, andb_true_r.
  unfold percentOctet. cbn [allUrlSafe]. rewrite !hexDigit_safe. reflexivity.
Qed.

Lemma encodeURIComponent_safe (q : jsstring) :
  forall e, encodeURIComponent q = Some e -> allUrlSafe e = true.
Proof.
  induction q as [|c q IH1 IH2] using two_step_ind; intros e H.
  - inversion H. reflexivity.
  - cbn [encodeURIComponent] in H.
    destruct (isUnreserved c) eqn:Hu.
    + destruct (encodeURIComponent q) as [e'|]; [|discriminate].
      inversion H; subst. cbn [allUrlSafe]. rewrite (IH1 e' eq_refl).
      unfold isUrlSafe.
      rewrite (N_ascii_embedding c (isUnreserved_small c Hu)), Hu.
      rewrite orb_true_r. reflexivity.
    + destruct (isLowSurrogate c); [discriminate|].
      destruct (isHighSurrogate c).
      * destruct q as [|d q'']; [discriminate|].
        destruct (isLowSurrogate d); [|discriminate].
        destruct (encodeURIComponent q'') as [e'|] eqn:E; [|discriminate].
        inversion H; subst.
        rewrite allUrlSafe_app, percentOctets_safe.
        apply (IH2 d q'' eq_refl e' E).
      * destruct (encodeURIComponent q) as [e'|]; [|discriminate].
        inversion H; subst.
        rewrite allUrlSafe_app, percentOctets_safe. apply (IH1 e' eq_refl).
Qed.

Lemma occurs_unsafe (a : ascii) (e : string) :
  allUrlSafe e = true -> isUrlSafe a = false -> occurs a e = false.
Proof.
  intros He Ha. induction e as [|b e IH]; [reflexivity|].
  cbn [allUrlSafe] in He. apply andb_true_iff in He. destruct He as [Hb He].
  cbn [occurs]. rewrite (IH He), orb_false_r.
  destruct (Ascii.eqb_spec a b) as [E|E]; [|reflexivity].
  subst. congruence.
Qed.

(** X13.  Whatever the user types, the query text placed in the URL
    consists of letters, digits, [- _ . ! ~ * ' ( )] and [%XX] escapes
    only.  It therefore contains no [&], [=], [#], [?], [/], [+] or
    space: the text cannot add or alter a parameter of the request. *)
Theorem encoded_query_is_url_safe (q : jsstring) (e : string) :
  encodeURIComponent q = Some e ->
  allUrlSafe e = true
  /\ occurs "&" e = false /\ occurs "=" e = false /\ occurs "#" e = false
  /\ occurs "?" e = false /\ occurs "/" e = false /\ occurs "+" e = false
  /\ occurs " " e = false.
Proof.
  intros H. pose proof (encodeURIComponent_safe q e H) as Hs.
  split; [exact Hs|].
  repeat split; apply (occurs_unsafe _ e Hs); reflexivity.
Qed.

Lemma encoded_query_is_url_safe_witness :
  encodeURIComponent (str "dune & co=1 #2") = Some "dune%20%26%20co%3D1%20%232"
  /\ occurs "&" "dune%20%26%20co%3D1%20%232" = false.
Proof.
  split; [reflexivity|].
  apply (encoded_query_is_url_safe (str "dune & co=1 #2")). reflexivity.
Defined.

(** X14.  [encodeURIComponent] throws exactly on the texts holding a
    surrogate code unit outside a pair.  For such a text (not blank)
    [performSearch] fetches nothing: it ends at once with the
    connectivity message, both loading flags cleared, and the list
    emptied if it was a new-session search.  For every other text it
    changes the state as the URL-free [performSearch] does and fetches a
    URL exactly when that one sends a request. *)
Theorem malformed_text_fetches_nothing
    (ty : string) (fl : Filters) (query : jsstring) (pg : nat)
    (isNewSearch : bool) (s : State) :
  (buildUrl ty fl query pg = None <-> isWellFormed query = false)
  /\ (truthy (trim query) = true -> isWellFormed query = false ->
      let s' := fst (performSearch_url ty fl query pg isNewSearch s) in
      snd (performSearch_url ty fl query pg isNewSearch s) = None
      /\ error s' = msgFailed /\ status s' = Error /\ busy s' = false
      /\ books s' = (if isNewSearch then [] else books s))
  /\ (isWellFormed query = true ->
      fst (performSearch_url ty fl query pg isNewSearch s)
      = fst (performSearch ty fl query pg isNewSearch s)
      /\ (snd (performSearch_url ty fl query pg isNewSearch s) = None
          <-> snd (performSearch ty fl query pg isNewSearch s) = None)).
Proof.
  assert (Hb : buildUrl ty fl query pg = None <-> isWellFormed query = false).
  { rewrite <- encodeURIComponent_None_iff. unfold buildUrl.
    destruct (encodeURIComponent query); split; congruence. }
  split; [exact Hb|]. split.
  - intros Hq Hw. apply Hb in Hw.
    unfold performSearch_url. rewrite Hq, Hw. cbn [negb fst snd].
    destruct isNewSearch; simpl; auto.
  - intros Hw. unfold performSearch_url, performSearch.
    destruct (truthy (trim query)); cbn [negb fst snd]; [|tauto].
    destruct (buildUrl ty fl query pg) as [url|] eqn:E.
    + simpl. split; [reflexivity|]. split; discriminate.
    + destruct Hb as [Hb _]. specialize (Hb eq_refl). congruence.
Qed.

Lemma malformed_text_fetches_nothing_witness :
  let query := [100; 55357; 117]%N in
  snd (performSearch_url "title" noFilters query 0 true (ui afterPage0)) = None
  /\ error (fst (performSearch_url "title" noFilters query 0 true (ui afterPage0)))
     = msgFailed
  /\ books (fst (performSearch_url "title" noFilters query 0 true (ui afterPage0)))
     = [].
Proof.
  intros query.
  destruct (malformed_text_fetches_nothing "title" noFilters query 0 true
              (ui afterPage0)) as (_ & H & _).
  destruct (H eq_refl eq_refl) as (H1 & H2 & _ & _ & H3).
  split; [exact H1|]. split; [exact H2 | exact H3].
Defined.

(** ** Cover image URLs *)

Lemma decimalZ_inj (a b : Z) : decimalZ a = decimalZ b -> a = b.
Proof.
  assert (Hread : forall z, NilZero.int_of_string (decimalZ z) = Some (Z.to_int z)).
  { intros z. unfold decimalZ. apply NilZero.isi.
    - destruct z; simpl; intros H; inversion H as [E].
      exact (DecimalPos.Unsigned.to_uint_nonnil _ E).
    - destruct z; simpl; intros H; inversion H as [E].
      exact (DecimalPos.Unsigned.to_uint_nonnil _ E). }
  intros H. pose proof (Hread a) as Ha. rewrite H, Hread in Ha.
  inversion Ha as [E].
  rewrite <- (DecimalZ.of_to a), <- (DecimalZ.of_to b), E. reflexivity.
Qed.

Lemma string_length_append (a b : string) :
  String.length (a ++ b) = String.length a + String.length b.
Proof. induction a as [|c a IH]; simpl; [reflexivity|]. rewrite IH. reflexivity. Qed.

Lemma append_inj_r (s : string) :
  forall a b : string, (a ++ s = b ++ s)%string -> a = b.
Proof.
  induction a as [|c a IH]; intros [|d b] H; simpl in H.
  - reflexivity.
  - apply (f_equal String.length) in H. simpl in H.
    rewrite string_length_append in H. lia.
  - apply (f_equal String.length) in H. simpl in H.
    rewrite string_length_append in H. lia.
  - inversion H. f_equal. apply IH. assumption.
Qed.

Lemma CoverId_eq (a b : CoverId) : coverValue a = coverValue b -> a = b.
Proof.
  destruct a as [va pa], b as [vb pb]. simpl. intros E. subst vb.
  f_equal. apply (Eqdep_dec.UIP_dec Bool.bool_dec).
Qed.

(** X15.  [getCoverImageUrl] gives no URL (so the placeholder is drawn)
    exactly when the record has no cover id or the id is 0, and records
    whose cover ids are different safe integers never get the same image
    URL. *)
Theorem cover_urls_are_distinct :
  (forall c, getCoverImageUrl c = None
             <-> c = None \/ exists id, c = Some id /\ coverValue id = 0%Z)
  /\ (forall a b u,
         getCoverImageUrl a = Some u -> getCoverImageUrl b = Some u -> a = b).
Proof.
  split.
  - intros [id|]; simpl.
    + destruct (Z.eqb_spec (coverValue id) 0) as [E|E].
      * split; [|reflexivity]. intros _. right. exists id. auto.
      * split; [discriminate|]. intros [H|(id' & H & H0)]; [discriminate|].
        inversion H; subst. contradiction.
    + split; auto.
  - intros a b u Ha Hb. unfold getCoverImageUrl in Ha, Hb.
    destruct a as [a|]; [|discriminate]. destruct b as [b|]; [|discriminate].
    destruct (coverValue a =? 0)%Z; [discriminate|].
    destruct (coverValue b =? 0)%Z; [discriminate|].
    rewrite <- Hb in Ha. injection Ha as Ha.
    apply append_inj_r, decimalZ_inj in Ha. f_equal. apply CoverId_eq, Ha.
Qed.

Lemma cover_urls_are_distinct_witness :
  getCoverImageUrl (Some (mkCoverId 8231856 eq_refl))
  = Some "https://covers.openlibrary.org/b/id/8231856-M.jpg"
  /\ getCoverImageUrl (Some (mkCoverId 0 eq_refl)) = None
  /\ Some (mkCoverId 8231856 eq_refl) = Some (mkCoverId 8231856 eq_refl).
Proof.
  destruct cover_urls_are_distinct as (H1 & H2).
  split; [reflexivity|]. split.
  - apply (H1 (Some (mkCoverId 0 eq_refl))). right.
    exists (mkCoverId 0 eq_refl). auto.
  - apply (H2 (Some (mkCoverId 8231856 eq_refl)) (Some (mkCoverId 8231856 eq_refl))
              "https://covers.openlibrary.org/b/id/8231856-M.jpg");
      reflexivity.
Defined.

(** ** Records already shown *)

(** X16.  The response to a continuation request, whatever it is (a
    page, an envelope without [docs], a failure) and in whatever state it
    arrives, never removes or reorders the records already in the list:
    the old list is a prefix of the new one, and what follows it is the
    page received, if any. *)
Theorem continuation_response_only_appends
    (rq : Request) (r : FetchResult) (s : State) :
  rq_isNewSearch rq = false ->
  books (performSearch_resume rq r s)
  = books s ++ match r with Json (Some ds) _ => ds | _ => [] end
  /\ List.length (books s) <= List.length (books (performSearch_resume rq r s))
  /\ firstn (List.length (books s)) (books (performSearch_resume rq r s))
     = books s.
Proof.
  intros Hn.
  assert (E : books (performSearch_resume rq r s)
              = books s ++ match r with Json (Some ds) _ => ds | _ => [] end).
  { destruct r as [| | |[ds|] nf]; try (rewrite app_nil_r; reflexivity).
    - destruct (resume_page_fields rq ds nf s) as (_ & _ & _ & Hb & _).
      unfold page in Hb. rewrite Hb, Hn. reflexivity.
    - rewrite resume_no_docs, Hn, app_nil_r. reflexivity. }
  split; [exact E|]. rewrite E. split.
  - rewrite length_app. lia.
  - rewrite firstn_app, Nat.sub_diag, firstn_all. simpl. apply app_nil_r.
Qed.

Lemma continuation_response_only_appends_witness :
  let rq := mkRequest "title" dune EmptyString EmptyString 20 20 1 false in
  books (performSearch_resume rq (page (sampleBooks 20 2) (Some 22%Z))
                              (ui afterPage0))
  = books (ui afterPage0) ++ sampleBooks 20 2.
Proof.
  intros rq.
  apply (continuation_response_only_appends rq
           (page (sampleBooks 20 2) (Some 22%Z)) (ui afterPage0)).
  reflexivity.
Defined.
